(** * chessdb: the bullet-chess dashboard script (chess.py)

    A shallow embedding of [chess.py]: the game fetcher
    [fetch_bullet_games], the daily aggregator [extract_daily_stats], the
    month computation, the chart and table construction and the generated
    document, followed by the properties of the specification.

    Modelling conventions.
    - Decoded JSON is the inductive [pyval]; a Python [dict] with string
      keys is a [gmap string pyval].
    - A Python [str] is a [string], the bytes of its UTF-8 encoding;
      [str.lower] is modelled on the ASCII letters.
    - A raised exception is the [Raise] branch of the error monad [exc].
    - [print] appends a line to the output carried next to the result.
    - A [datetime.date] is its triple (year, month, day), ordered
      lexicographically as Python orders dates.
    - A float64 is a [spec_float] of the Standard Library with
      precision 53 and maximal exponent 1024, rounding to nearest even. *)

From Stdlib Require Import ZArith String Ascii List Lia.
From Stdlib Require Import Floats.SpecFloat.
From stdpp Require Import base option list gmap strings sorting pretty.

Local Open Scope Z_scope.
Local Open Scope string_scope.

(** ** Python values and exceptions *)

#[local] Set Warnings "-register-all".

Inductive pyval :=
  | PNone
  | PBool (b : bool)
  | PInt (n : Z)
  | PFloat (x : spec_float)
  | PStr (s : string)
  | PList (l : list pyval)
  | PDict (d : gmap string pyval).

(** [type(v).__name__] *)
Definition type_name (v : pyval) : string :=
  match v with
  | PNone => "NoneType"
  | PBool _ => "bool"
  | PInt _ => "int"
  | PFloat _ => "float"
  | PStr _ => "str"
  | PList _ => "list"
  | PDict _ => "dict"
  end.

Inductive exn_class :=
  | KeyError | TypeError | AttributeError | ValueError | OverflowError
  | ConnectionError | HTTPError | JSONDecodeError.

(** An exception object: its class and [str(e)]. *)
Record exn := Exn { exn_cls : exn_class; exn_str : string }.

Inductive exc (A : Type) :=
  | Ok (x : A)
  | Raise (e : exn).
Arguments Ok {A} x.
Arguments Raise {A} e.

#[global] Instance exc_ret : MRet exc := fun A x => Ok x.
#[global] Instance exc_bind : MBind exc := fun A B f m =>
  match m with
  | Ok x => f x
  | Raise e => Raise e
  end.

(** [v[k]] for a string key [k]. *)
Definition getitem (v : pyval) (k : string) : exc pyval :=
  match v with
  | PDict d =>
      match d !! k with
      | Some x => Ok x
      | None => Raise (Exn KeyError ("'" +:+ k +:+ "'"))
      end
  | PList _ =>
      Raise (Exn TypeError "list indices must be integers or slices, not str")
  | PStr _ =>
      Raise (Exn TypeError "string indices must be integers, not 'str'")
  | _ =>
      Raise (Exn TypeError ("'" +:+ type_name v +:+ "' object is not subscriptable"))
  end.

(** [v.get(k)]: only a [dict] has the method. *)
Definition get (v : pyval) (k : string) : exc pyval :=
  match v with
  | PDict d => Ok (default PNone (d !! k))
  | _ =>
      Raise (Exn AttributeError
               ("'" +:+ type_name v +:+ "' object has no attribute 'get'"))
  end.

(** [v.get(k, dflt)] *)
Definition get_default (v : pyval) (k : string) (dflt : pyval) : exc pyval :=
  match v with
  | PDict d => Ok (default dflt (d !! k))
  | _ =>
      Raise (Exn AttributeError
               ("'" +:+ type_name v +:+ "' object has no attribute 'get'"))
  end.

(** ** Strings *)

Definition lower_ascii (c : ascii) : ascii :=
  let n := N_of_ascii c in
  if ((65 <=? n) && (n <=? 90))%N then ascii_of_N (n + 32) else c.

Fixpoint lower (s : string) : string :=
  match s with
  | EmptyString => EmptyString
  | String c s' => String (lower_ascii c) (lower s')
  end.

(** [v.lower()]: only a [str] has the method. *)
Definition str_lower (v : pyval) : exc string :=
  match v with
  | PStr s => Ok (lower s)
  | _ =>
      Raise (Exn AttributeError
               ("'" +:+ type_name v +:+ "' object has no attribute 'lower'"))
  end.

(** [x == s] for a string literal [s]: a value of another type is unequal. *)
Definition eq_str (x : pyval) (s : string) : bool :=
  match x with
  | PStr t => bool_decide (t = s)
  | _ => false
  end.

(** [f"{n}"] and [f"{n:02d}"] for an integer. *)
Definition fmt_d (n : Z) : string := pretty n.
Definition fmt_02d (n : Z) : string :=
  if bool_decide (0 <= n < 10) then "0" +:+ pretty n else pretty n.

(** ** Float64 arithmetic *)

Definition prec : Z := 53.
Definition emax : Z := 1024.

(** Conversion of an integer to float64, division and multiplication. *)
Definition float_of_int (n : Z) : spec_float := binary_normalize prec emax n 0 false.
Definition fdiv : spec_float → spec_float → spec_float := SFdiv prec emax.
Definition fmul : spec_float → spec_float → spec_float := SFmul prec emax.

(** The integer nearest to [m * 2^e] for [e < 0], ties to even. *)
Definition rint_mantissa (m : positive) (e : Z) : Z :=
  let k := - e in
  let q := Z.shiftr (Z.pos m) k in
  let r := Z.pos m - Z.shiftl q k in
  let half := Z.shiftl 1 (k - 1) in
  if (r <? half)%Z then q
  else if (half <? r)%Z then q + 1
  else if Z.even q then q else q + 1.

(** The integer nearest to a finite float, ties to even. *)
Definition rint_Z (x : spec_float) : Z :=
  match x with
  | S754_finite s m e =>
      if (0 <=? e)%Z then cond_Zopp s (Z.shiftl (Z.pos m) e)
      else cond_Zopp s (rint_mantissa m e)
  | _ => 0
  end.

(** C's [modf] on a finite non-zero float: the integral part and the
    fractional part, both with the sign of the argument. *)
Definition modf (s : bool) (m : positive) (e : Z) : Z * spec_float :=
  if (0 <=? e)%Z then (cond_Zopp s (Z.shiftl (Z.pos m) e), S754_zero s)
  else
    let q := Z.shiftr (Z.pos m) (- e) in
    let r := Z.pos m - Z.shiftl q (- e) in
    (cond_Zopp s q, binary_normalize prec emax (cond_Zopp s r) e s).

(** ** Dates *)

(** A [datetime.date] value. *)
Definition pydate : Type := Z * Z * Z.

Definition days_before_month (month : Z) : Z :=
  match month with
  | 1 => 0 | 2 => 31 | 3 => 59 | 4 => 90 | 5 => 120 | 6 => 151
  | 7 => 181 | 8 => 212 | 9 => 243 | 10 => 273 | 11 => 304 | 12 => 334
  | _ => 0
  end.

Definition days_in_month (month : Z) : Z :=
  match month with
  | 2 => 28
  | 4 | 6 | 9 | 11 => 30
  | _ => 31
  end.

(** [datetime._ord2ymd]: the date of a proleptic Gregorian ordinal, day 1
    being 0001-01-01. *)
Definition ord2ymd (ordinal : Z) : pydate :=
  let n := ordinal - 1 in
  let n400 := n / 146097 in
  let n := n mod 146097 in
  let year := n400 * 400 + 1 in
  let n100 := n / 36524 in
  let n := n mod 36524 in
  let n4 := n / 1461 in
  let n := n mod 1461 in
  let n1 := n / 365 in
  let n := n mod 365 in
  let year := year + n100 * 100 + n4 * 4 + n1 in
  if bool_decide (n1 = 4 ∨ n100 = 4) then (year - 1, 12, 31)
  else
    let leapyear := bool_decide (n1 = 3 ∧ (n4 ≠ 24 ∨ n100 = 3)) in
    let month := Z.shiftr (n + 50) 5 in
    let preceding :=
      days_before_month month
      + (if bool_decide (2 < month) && leapyear then 1 else 0) in
    if bool_decide (n < preceding) then
      let month := month - 1 in
      let preceding :=
        preceding
        - (days_in_month month
           + (if bool_decide (month = 2) && leapyear then 1 else 0)) in
      (year, month, n - preceding + 1)
    else (year, month, n - preceding + 1).

(** Ordinal of 1970-01-01, and the ordinals of [date.min] and [date.max]. *)
Definition epoch_ordinal : Z := 719163.
Definition min_ordinal : Z := 1.
Definition max_ordinal : Z := 3652059.

(** [datetime.utcfromtimestamp(v).date()] on Linux.  A [bool] is an
    [int] in Python.  A timestamp that does not fit the platform's 64-bit
    [time_t] raises [OverflowError]; one whose year is outside 1..9999
    raises [ValueError]; a value that is not a number raises [TypeError]. *)
Definition utc_date_of_int (t : Z) : exc pydate :=
  if bool_decide (- 2 ^ 63 <= t < 2 ^ 63) then
    let ordinal := t / 86400 + epoch_ordinal in
    if bool_decide (min_ordinal <= ordinal <= max_ordinal)
    then Ok (ord2ymd ordinal)
    else Raise (Exn ValueError "year is out of range")
  else Raise (Exn OverflowError "timestamp out of range for platform time_t").

(** The whole seconds of a float timestamp, as CPython splits it into
    seconds and microseconds: the fraction is scaled to microseconds and
    rounded half to even, a carry going to the seconds. *)
Definition float_seconds (x : spec_float) : exc Z :=
  match x with
  | S754_nan => Raise (Exn ValueError "Invalid value NaN (not a number)")
  | S754_infinity _ =>
      Raise (Exn OverflowError "timestamp out of range for platform time_t")
  | S754_zero _ => Ok 0
  | S754_finite s m e =>
      let '(intpart, floatpart) := modf s m e in
      let us := rint_Z (fmul floatpart (float_of_int 1000000)) in
      Ok (if (1000000 <=? us)%Z then intpart + 1
          else if (us <? 0)%Z then intpart - 1
          else intpart)
  end.

Definition utcfromtimestamp_date (v : pyval) : exc pydate :=
  match v with
  | PInt t => utc_date_of_int t
  | PBool b => utc_date_of_int (if b then 1 else 0)
  | PFloat x => t ← float_seconds x; utc_date_of_int t
  | _ =>
      Raise (Exn TypeError
               ("'" +:+ type_name v +:+ "' object cannot be interpreted as an integer"))
  end.

(** ** The daily aggregator *)

(** [username = "cand5d".lower()] *)
Definition username : string := lower "cand5d".

(** The value of [daily[date]]: [{"games": .., "wins": ..}]. *)
Record stats := Stats { games : Z; wins : Z }.

(** [daily.setdefault(k, v)] *)
Definition setdefault (daily : gmap pydate stats) (k : pydate) (v : stats)
  : gmap pydate stats :=
  match daily !! k with
  | Some _ => daily
  | None => <[k:=v]> daily
  end.

Definition incr_games (s : stats) : stats := Stats (games s + 1) (wins s).
Definition incr_wins (win : Z) (s : stats) : stats := Stats (games s) (wins s + win).

(** Lines 26-28 of the loop body: the date of the game and the result
    of the side taken for the perspective player. *)
Definition game_fields (g : pyval) : exc (pydate * pyval) :=
  end_time ← getitem g "end_time";
  date ← utcfromtimestamp_date end_time;
  white ← getitem g "white";
  name ← getitem white "username";
  lname ← str_lower name;
  let color := if bool_decide (lname = username) then "white" else "black" in
  side ← getitem g color;
  result ← getitem side "result";
  Ok (date, result).

(** Lines 26-29: everything of the loop body that can raise.  The result
    is the pair [(date, win)]. *)
Definition game_entry (g : pyval) : exc (pydate * Z) :=
  '(date, result) ← game_fields g;
  let win := if eq_str result "win" then 1 else 0 in
  Ok (date, win).

(** Lines 30-32: the three updates of [daily]. *)
Definition record_game (daily : gmap pydate stats) (date : pydate) (win : Z)
  : gmap pydate stats :=
  let daily := setdefault daily date (Stats 0 0) in
  let daily := alter incr_games date daily in
  alter (incr_wins win) date daily.

(** One iteration of the loop; the bare [except] swallows every exception
    and continues. *)
Definition loop_body (daily : gmap pydate stats) (g : pyval) : gmap pydate stats :=
  match game_entry g with
  | Ok (date, win) => record_game daily date win
  | Raise _ => daily
  end.

(** The dictionary [daily] after the loop of lines 24-34. *)
Definition daily_of (gs : list pyval) : gmap pydate stats :=
  foldl loop_body ∅ gs.

(** Python's order on dates, and on the [(date, stats)] items; the keys of
    a dict are distinct, so the comparison never reaches the second
    component. *)
Definition date_le (a b : pydate) : Prop :=
  let '(y1, m1, d1) := a in
  let '(y2, m2, d2) := b in
  y1 < y2 ∨ (y1 = y2 ∧ (m1 < m2 ∨ (m1 = m2 ∧ d1 <= d2))).

#[global] Instance date_le_dec : RelDecision date_le.
Proof. intros [[y1 m1] d1] [[y2 m2] d2]; unfold date_le; apply _. Defined.

Definition item_le (a b : pydate * stats) : Prop := date_le a.1 b.1.

#[global] Instance item_le_dec : RelDecision item_le.
Proof. intros a b; unfold item_le; apply _. Defined.

(** [sorted(daily.items())]: the items arranged by date.  The dictionary
    is iterated in the order of [map_to_list]; Python iterates in the order
    of insertion, and the sorted list is the same ([sorted_items_any_order]
    below). *)
Definition sorted_items (daily : gmap pydate stats) : list (pydate * stats) :=
  merge_sort item_le (map_to_list daily).

(** ** The derived columns *)

(** [numpy.rint] *)
Definition np_rint (x : spec_float) : spec_float :=
  match x with
  | S754_finite s m e =>
      if (0 <=? e)%Z then x
      else
        let n := rint_mantissa m e in
        if (n =? 0)%Z then S754_zero s
        else binary_normalize prec emax (cond_Zopp s n) 0 s
  | _ => x
  end.

(** [Series.round(1)], that is [numpy.round(x, 1)]: scale by ten, round
    to the nearest integer, scale back. *)
Definition round1 (x : spec_float) : spec_float :=
  fdiv (np_rint (fmul x (float_of_int 10))) (float_of_int 10).

(** [(df["Wins"] / df["Games"] * 100).round(1)], one row. *)
Definition win_rate (wins games : Z) : spec_float :=
  round1 (fmul (fdiv (float_of_int wins) (float_of_int games)) (float_of_int 100)).

(** [lambda x: "⚠️ Overuse" if x > 6 else "✅ OK"] *)
Definition flag (x : Z) : string :=
  if bool_decide (6 < x) then "⚠️ Overuse" else "✅ OK".

(** ** The data frame *)

Record row := Row {
  Date : pydate;
  Games : Z;
  Wins : Z;
  WinRate : spec_float;
  Flag : string
}.

(** The three-column frame of lines 36-39. *)
Definition frame_of (daily : gmap pydate stats) : list (pydate * Z * Z) :=
  (λ it, (it.1, games it.2, wins it.2)) <$> sorted_items daily.

(** Lines 43-44 add the two derived columns, row by row. *)
Definition add_columns (r : pydate * Z * Z) : row :=
  let '(date, games, wins) := r in
  Row date games wins (win_rate wins games) (flag games).

(** The function returns the frame and what it printed. *)
Definition extract_daily_stats (gs : list pyval) : list row * list string :=
  let df := frame_of (daily_of gs) in
  if bool_decide (df = []) then ([], ["No bullet games found."])
  else (add_columns <$> df, []).

(** ** The game fetcher *)

(** What [requests.get] hands back: the fields of the response the script
    uses.  [json_body] is the outcome of [res.json()]: the decoded body,
    or the decoder's exception for a body that is not JSON. *)
Record response := Response {
  status_code : Z;
  reason : string;
  url : string;
  json_body : exc pyval
}.

(** [headers = {"User-Agent": "Mozilla/5.0"}] *)
Definition headers : list (string * string) := [("User-Agent", "Mozilla/5.0")].

(** The network: the outcome of [requests.get(url, headers=..)], an
    exception standing for a transport failure. *)
Definition network : Type := string → list (string * string) → exc response.

(** [res.raise_for_status()] *)
Definition raise_for_status (res : response) : exc unit :=
  if bool_decide (400 <= status_code res < 500) then
    Raise (Exn HTTPError
             (fmt_d (status_code res) +:+ " Client Error: " +:+ reason res
              +:+ " for url: " +:+ url res))
  else if bool_decide (500 <= status_code res < 600) then
    Raise (Exn HTTPError
             (fmt_d (status_code res) +:+ " Server Error: " +:+ reason res
              +:+ " for url: " +:+ url res))
  else Ok ().

Fixpoint chars (s : string) : list pyval :=
  match s with
  | EmptyString => []
  | String c s' => PStr (String c EmptyString) :: chars s'
  end.

(** The elements a [for] clause draws from a value: the items of a list,
    the keys of a dict, the characters of a string. *)
Definition iterate (v : pyval) : exc (list pyval) :=
  match v with
  | PList l => Ok l
  | PDict d => Ok (PStr <$> (map_to_list d).*1)
  | PStr s => Ok (chars s)
  | _ => Raise (Exn TypeError ("'" +:+ type_name v +:+ "' object is not iterable"))
  end.

(** [[g for g in games if g.get("time_class") == "bullet"]] over the
    elements of [games]. *)
Fixpoint bullet_only (l : list pyval) : exc (list pyval) :=
  match l with
  | [] => Ok []
  | g :: l' =>
      tc ← get g "time_class";
      rest ← bullet_only l';
      Ok (if eq_str tc "bullet" then g :: rest else rest)
  end.

Definition games_url (username : string) (year month : Z) : string :=
  "https://api.chess.com/pub/player/" +:+ username +:+ "/games/"
  +:+ fmt_d year +:+ "/" +:+ fmt_02d month.

(** The body of the [try]. *)
Definition fetch_body (net : network) (username : string) (year month : Z)
  : exc (list pyval) :=
  res ← net (games_url username year month) headers;
  _ ← raise_for_status res;
  body ← json_body res;
  games ← get_default body "games" (PList []);
  elems ← iterate games;
  bullet_only elems.

Definition failed_to_load (year month : Z) (e : exn) : string :=
  "Failed to load " +:+ fmt_d year +:+ "-" +:+ fmt_02d month +:+ ": " +:+ exn_str e.

(** The function returns the games and what it printed. *)
Definition fetch_bullet_games (net : network) (username : string) (year month : Z)
  : list pyval * list string :=
  match fetch_body net username year month with
  | Ok gs => (gs, [])
  | Raise e => ([], [failed_to_load year month e])
  end.

(** ** The months *)

Definition this_month (today : pydate) : Z * Z :=
  let '(year, month, _) := today in (year, month).

Definition last_month (today : pydate) : Z * Z :=
  let '(year, month, _) := today in
  if bool_decide (month = 1) then (year - 1, 12) else (year, month - 1).

(** ** The chart *)

Inductive attr :=
  | AStr (s : string)
  | AInt (n : Z)
  | AFloat (f : spec_float)
  | ADict (d : list (string * attr)).

Inductive trace :=
  | Bar (x : list pydate) (y : list Z) (name : string)
        (marker_color : list string) (text : list Z)
        (textposition : string) (yaxis : string)
  | Scatter (x : list pydate) (y : list spec_float) (name : string)
            (mode : string) (line : list (string * attr))
            (marker : list (string * attr)) (yaxis : string).

Record figure := Figure {
  data : list trace;
  layout : list (string * attr)
}.

Definition plot (df : list row) : figure :=
  if bool_decide (df ≠ []) then
    Figure
      [ Bar (Date <$> df) (Games <$> df) "Games per Day"
            ((λ x, if bool_decide (6 < x) then "red" else "green") <$> (Games <$> df))
            (Games <$> df) "auto" "y1";
        Scatter (Date <$> df) (WinRate <$> df) "Win Rate (%)"
                "lines+markers" [("color", AStr "blue")] [("size", AInt 10)] "y2" ]
      [ ("title", AStr "Bullet Games and Win Rate per Day");
        ("height", AInt 500);
        ("xaxis", ADict [("title", AStr "Date")]);
        ("yaxis", ADict [("title", AStr "Games"); ("side", AStr "left")]);
        ("yaxis2", ADict [("title", AStr "Win Rate (%)"); ("side", AStr "right");
                          ("overlaying", AStr "y")]);
        ("legend", ADict [("x", AFloat (fdiv (float_of_int 1) (float_of_int 10)));
                          ("y", AFloat (fdiv (float_of_int 11) (float_of_int 10)));
                          ("orientation", AStr "h")]) ]
  else
    Figure [] [ ("title", AStr "No Bullet Games Found"); ("height", AInt 500) ].

(** ** The table and the document *)

(** [df.sort_values('Date', ascending=False)]: the rows arranged by
    descending date ([descending_is_reverse] below: whatever the sorting
    algorithm). *)
Definition row_ge (a b : row) : Prop := date_le (Date b) (Date a).

#[global] Instance row_ge_dec : RelDecision row_ge.
Proof. intros a b; unfold row_ge; apply _. Defined.

Definition sort_values_desc (df : list row) : list row := merge_sort row_ge df.

(** The fixed parts of the f-string of lines 95-116, around the chart and
    around the table. *)
Definition html_head : string := "
<!DOCTYPE html>
<html>
<head>
    <title>Bullet Chess Dashboard</title>
    <style>
        body { font-family: Arial, sans-serif; max-width: 1200px; margin: auto; text-align: center; }
        table { width: 100%; border-collapse: collapse; margin-top: 20px; }
        th, td { border: 1px solid #ddd; padding: 8px; text-align: center; }
        th { background-color: #f2f2f2; }
        tr:nth-child(even) { background-color: #f9f9f9; }
        tr:hover { background-color: #f5f5f5; }
    </style>
</head>
<body>
    <h1>Bullet Chess Dashboard – Last 2 Months</h1>
    ".
Definition html_mid : string := "
    <h3>Daily Summary Table</h3>
    ".
Definition html_tail : string := "
</body>
</html>
".

(** The outcome of a run: the printed lines and the text written to
    [index.html]. *)
Record run := Run {
  stdout : list string;
  index_html : string
}.

Section Script.
(** The renderers of plotly and pandas:
    [pio.to_html(fig, full_html=False, include_plotlyjs='cdn')] and
    [DataFrame.to_html(index=False)]. *)
Variable to_html : figure → string.
Variable frame_to_html : list row → string.
(** The network and [datetime.utcnow().date()]. *)
Variable net : network.
Variable today : pydate.

Definition fetch_last : list pyval * list string :=
  fetch_bullet_games net username (last_month today).1 (last_month today).2.
Definition fetch_this : list pyval * list string :=
  fetch_bullet_games net username (this_month today).1 (this_month today).2.

Definition games_combined : list pyval := fetch_last.1 ++ fetch_this.1.

Definition df : list row := (extract_daily_stats games_combined).1.

Definition fig : figure := plot df.

Definition df_table : list row := sort_values_desc df.

Definition table_html : string :=
  if bool_decide (df ≠ []) then frame_to_html df_table
  else "<p>No data available.</p>".

Definition html_content : string :=
  html_head +:+ to_html fig +:+ html_mid +:+ table_html +:+ html_tail.

Definition main : run :=
  Run (fetch_last.2 ++ fetch_this.2
       ++ ["Fetched " +:+ fmt_d (Z.of_nat (length games_combined)) +:+ " games"]
       ++ (extract_daily_stats games_combined).2
       ++ ["Generated index.html"])
      html_content.
End Script.

(** * Definitions used in the statements *)

(** ** Orders and decisions *)

(** Strictly earlier, strictly later. *)
Definition date_lt (a b : pydate) : Prop := date_le a b ∧ a ≠ b.
Definition date_gt (a b : pydate) : Prop := date_lt b a.

#[global] Instance date_lt_dec : RelDecision date_lt.
Proof. intros a b; unfold date_lt; apply _. Defined.
#[global] Instance date_gt_dec : RelDecision date_gt.
Proof. intros a b; unfold date_gt; apply _. Defined.

#[global] Instance spec_float_eq_dec : EqDecision spec_float.
Proof. solve_decision. Defined.

(** ** Reading the aggregation *)

(** The count invariant of a dictionary entry. *)
Definition stats_ok (s : stats) : Prop := 0 <= wins s <= games s ∧ 1 <= games s.

(** The row made of one item of the dictionary. *)
Definition row_of (it : pydate * stats) : row :=
  add_columns (it.1, games it.2, wins it.2).

(** The game is aggregated on day [d]; it is aggregated on day [d] as a win. *)
Definition played_on (d : pydate) (g : pyval) : bool :=
  match game_fields g with
  | Ok (d', _) => bool_decide (d' = d)
  | Raise _ => false
  end.

Definition won_on (d : pydate) (g : pyval) : bool :=
  match game_fields g with
  | Ok (d', result) => bool_decide (d' = d) && eq_str result "win"
  | Raise _ => false
  end.

Fixpoint count (p : pyval → bool) (gs : list pyval) : Z :=
  match gs with
  | [] => 0
  | g :: gs' => (if p g then 1 else 0) + count p gs'
  end.

(** The fields of a game read for the side [color]: its date and that
    side's result. *)
Definition fields_as (color : string) (g : pyval) : exc (pydate * pyval) :=
  end_time ← getitem g "end_time";
  date ← utcfromtimestamp_date end_time;
  side ← getitem g color;
  result ← getitem side "result";
  Ok (date, result).

(** The dates on the horizontal axis of each trace of a chart. *)
Definition trace_dates (t : trace) : list pydate :=
  match t with
  | Bar x _ _ _ _ _ _ => x
  | Scatter x _ _ _ _ _ _ => x
  end.

(** The chart and the table section of the run without data. *)
Definition no_data_figure : figure :=
  Figure [] [("title", AStr "No Bullet Games Found"); ("height", AInt 500)].
Definition no_data_table : string := "<p>No data available.</p>".

(** ** The win rate in the words of the specification *)

(** The float64 nearest to [k / 10]. *)
Definition tenths (k : Z) : spec_float := fdiv (float_of_int k) (float_of_int 10).

(** Following the words of the specification: [100 × wins / games]
    rounded to one decimal place, computed exactly.  [spec_tenths] is the
    rounded value counted in tenths; when the exact value lies halfway
    between two tenths the rule [tie] decides: to the even tenth (the rule
    of Python's [round] and of IEEE arithmetic), up, or down. *)
Inductive tie := TieEven | TieUp | TieDown.

Definition spec_tenths (t : tie) (wins games : Z) : Z :=
  let q := (1000 * wins) / games in
  let r := (1000 * wins) mod games in
  if bool_decide (2 * r < games) then q
  else if bool_decide (games < 2 * r) then q + 1
  else match t with
       | TieEven => if Z.even q then q else q + 1
       | TieUp => q + 1
       | TieDown => q
       end.

Definition spec_win_rate (t : tie) (wins games : Z) : spec_float :=
  tenths (spec_tenths t wins games).

Definition agrees (games wins : Z) : bool :=
  bool_decide (win_rate wins games = spec_win_rate TieEven wins games).

(** ** Sample data *)

Definition player (name result : string) : pyval :=
  PDict (<["username" := PStr name]> {["result" := PStr result]}).

Definition sample_game (end_time : Z) (white black : pyval) : pyval :=
  PDict (<["end_time" := PInt end_time]>
         (<["time_class" := PStr "bullet"]>
          (<["white" := white]> {["black" := black]}))).

(** Midnight UTC of 2024-01-01, and the length of a day in seconds. *)
Definition jan1 : Z := 1704067200.
Definition day : Z := 86400.

(** A game the tracked player wins with white, and one lost with black. *)
Definition won_game (t : Z) : pyval :=
  sample_game t (player "Cand5D" "win") (player "rival" "resigned").
Definition lost_game (t : Z) : pyval :=
  sample_game t (player "rival" "win") (player "cand5d" "checkmated").

(** [n] games of one day starting at time [t], the first [w] of them won. *)
Definition day_games (t n w : Z) : list pyval :=
  (won_game <$> seqZ t w) ++ (lost_game <$> seqZ (t + w) (n - w)).

(** A game of another time class, and a network on which only January
    2024 can be fetched. *)
Definition blitz_game (t : Z) : pyval :=
  PDict (<["end_time" := PInt t]>
         (<["time_class" := PStr "blitz"]>
          (<["white" := player "cand5d" "win"]> {["black" := player "rival" "timeout"]}))).

Definition january_only : network := λ u _,
  if bool_decide (u = "https://api.chess.com/pub/player/cand5d/games/2024/01") then
    Ok (Response 200 "OK" u
          (Ok (PDict {["games" :=
                 PList [won_game jan1; blitz_game (jan1 + 30); lost_game (jan1 + 60)]]})))
  else Raise (Exn ConnectionError "Connection refused").

Definition offline : network := λ _ _, Raise (Exn ConnectionError "Connection refused").

(** ** Reading the fetcher, the counts and the months *)

Definition is_dict (g : pyval) : bool :=
  match g with
  | PDict _ => true
  | _ => false
  end.

(** The game is an object whose time class is the string "bullet". *)
Definition is_bullet (g : pyval) : bool :=
  match g with
  | PDict d =>
      match d !! "time_class" with
      | Some tc => eq_str tc "bullet"
      | None => false
      end
  | _ => false
  end.

(** The game is read without an exception; it is read as a win. *)
Definition aggregated (g : pyval) : bool :=
  match game_fields g with
  | Ok _ => true
  | Raise _ => false
  end.

Definition aggregated_win (g : pyval) : bool :=
  match game_fields g with
  | Ok (_, result) => eq_str result "win"
  | Raise _ => false
  end.

(** The counts of two entries of one day taken together. *)
Definition add_stats (s1 s2 : stats) : stats :=
  Stats (games s1 + games s2) (wins s1 + wins s2).

(** The sum of an integer column. *)
Definition sum_Z (l : list Z) : Z := foldr Z.add 0 l.

(** The sum of a count over the entries of the dictionary. *)
Definition total (f : stats → Z) (daily : gmap pydate stats) : Z :=
  sum_Z ((λ it, f it.2) <$> map_to_list daily).

(** The months counted from year 0. *)
Definition month_index (ym : Z * Z) : Z := 12 * ym.1 + ym.2.

(** The first and the last second of the years 1 to 9999. *)
Definition min_timestamp : Z := -62135596800.
Definition max_timestamp : Z := 253402300799.

(** The colour of the bar of a row, read from its flag. *)
Definition colour_of_flag (r : row) : string :=
  if bool_decide (Flag r = "⚠️ Overuse") then "red" else "green".

(** ** Checking the calendar over one cycle of 400 years *)

(** The days of 400 Gregorian years. *)
Definition cycle_days : Z := 146097.

(** The date moved by [k] years. *)
Definition shift_years (k : Z) (d : pydate) : pydate := (d.1.1 + k, d.1.2, d.2).

Definition date_ltb (a b : pydate) : bool :=
  let '(y1, m1, d1) := a in
  let '(y2, m2, d2) := b in
  ((y1 <? y2)%Z
   || ((y1 =? y2)%Z && ((m1 <? m2)%Z || ((m1 =? m2)%Z && (d1 <? d2)%Z)))).

(** The year is among the first 400, the month among 1 to 12, the day
    among 1 to 31. *)
Definition in_first_cycle (d : pydate) : bool :=
  (1 <=? d.1.1)%Z && (d.1.1 <=? 400)%Z
  && (1 <=? d.1.2)%Z && (d.1.2 <=? 12)%Z
  && (1 <=? d.2)%Z && (d.2 <=? 31)%Z.

(** The date [cur] comes after [prev] and is a date of the first cycle. *)
Definition day_checked (prev cur : pydate) : bool :=
  date_ltb prev cur && in_first_cycle cur.

(** [fuel] consecutive ordinals from [r] on, each checked against the date
    of the ordinal before. *)
Fixpoint days_checked (fuel : nat) (r : Z) (prev : pydate) : bool :=
  match fuel with
  | O => true
  | S fuel' =>
      let cur := ord2ymd r in
      if day_checked prev cur then days_checked fuel' (r + 1) cur else false
  end.

(** * Properties *)

(** ** The calendar and the formatting on examples *)

Example ord2ymd_min : ord2ymd min_ordinal = (1, 1, 1).
Proof. reflexivity. Qed.
Example ord2ymd_max : ord2ymd max_ordinal = (9999, 12, 31).
Proof. reflexivity. Qed.
Example ord2ymd_epoch : ord2ymd epoch_ordinal = (1970, 1, 1).
Proof. reflexivity. Qed.
Example utc_date_2024 : utcfromtimestamp_date (PInt 1704067200) = Ok (2024, 1, 1).
Proof. reflexivity. Qed.
Example utc_date_leap : utcfromtimestamp_date (PInt 1709251199) = Ok (2024, 2, 29).
Proof. reflexivity. Qed.
Example utc_date_before_epoch : utcfromtimestamp_date (PInt (-1)) = Ok (1969, 12, 31).
Proof. reflexivity. Qed.
(** 86399.5 is still the first day; -0.5 is the day before. *)
Example utc_date_float :
  utcfromtimestamp_date (PFloat (fdiv (float_of_int 172799) (float_of_int 2)))
  = Ok (1970, 1, 1)
  ∧ utcfromtimestamp_date (PFloat (fdiv (float_of_int (-1)) (float_of_int 2)))
    = Ok (1969, 12, 31).
Proof. split; reflexivity. Qed.
Example username_value : username = "cand5d".
Proof. reflexivity. Qed.
Example fmt_examples : fmt_02d 3 = "03" ∧ fmt_02d 12 = "12" ∧ fmt_d 2024 = "2024".
Proof. vm_compute. auto. Qed.

(** ** The dictionary of daily counts *)

Lemma record_game_lookup (daily : gmap pydate stats) (d d' : pydate) (win : Z) :
  record_game daily d win !! d' =
    if decide (d = d') then
      Some (Stats (games (default (Stats 0 0) (daily !! d)) + 1)
                  (wins (default (Stats 0 0) (daily !! d)) + win))
    else daily !! d'.
Proof.
  unfold record_game, setdefault.
  destruct (decide (d = d')) as [<-|Hne].
  - rewrite !lookup_alter_eq.
    destruct (daily !! d) as [s|] eqn:E; simpl.
    + rewrite E. reflexivity.
    + rewrite lookup_insert_eq. reflexivity.
  - rewrite !lookup_alter_ne by done.
    destruct (daily !! d) as [s|] eqn:E; [done|].
    by rewrite lookup_insert_ne.
Qed.

Lemma game_entry_win (g : pyval) (d : pydate) (win : Z) :
  game_entry g = Ok (d, win) → win = 0 ∨ win = 1.
Proof.
  unfold game_entry. destruct (game_fields g) as [[d' r]|e]; simpl; [|done].
  intros [= _ <-]. destruct (eq_str r "win"); auto.
Qed.

Lemma loop_body_ok (daily : gmap pydate stats) (g : pyval) :
  map_Forall (λ _, stats_ok) daily → map_Forall (λ _, stats_ok) (loop_body daily g).
Proof.
  intros Hall. unfold loop_body.
  destruct (game_entry g) as [[d win]|e] eqn:E; [|done].
  apply game_entry_win in E.
  intros d' s. rewrite record_game_lookup.
  destruct (decide (d = d')) as [<-|Hne]; [|by apply Hall].
  intros [= <-]. unfold stats_ok; simpl.
  destruct (daily !! d) as [s|] eqn:Es; simpl.
  - apply Hall in Es. unfold stats_ok in Es. lia.
  - lia.
Qed.

Lemma foldl_loop_body_ok (gs : list pyval) (daily : gmap pydate stats) :
  map_Forall (λ _, stats_ok) daily →
  map_Forall (λ _, stats_ok) (foldl loop_body daily gs).
Proof.
  revert daily. induction gs as [|g gs IH]; intros daily Hall; simpl; [done|].
  apply IH, loop_body_ok, Hall.
Qed.

Lemma daily_of_ok (gs : list pyval) : map_Forall (λ _, stats_ok) (daily_of gs).
Proof. apply foldl_loop_body_ok, map_Forall_empty. Qed.

(** ** The order on dates *)

#[global] Instance date_le_refl : Reflexive date_le.
Proof. intros [[y m] d]; unfold date_le; lia. Qed.

#[global] Instance date_le_trans : Transitive date_le.
Proof. intros [[y1 m1] d1] [[y2 m2] d2] [[y3 m3] d3]; unfold date_le; lia. Qed.

#[global] Instance date_le_total : Total date_le.
Proof. intros [[y1 m1] d1] [[y2 m2] d2]; unfold date_le; lia. Qed.

#[global] Instance date_le_antisym : AntiSymm (=) date_le.
Proof.
  intros [[y1 m1] d1] [[y2 m2] d2]; unfold date_le; intros H1 H2.
  assert (y1 = y2 ∧ m1 = m2 ∧ d1 = d2) as (-> & -> & ->) by lia. done.
Qed.

#[global] Instance item_le_trans : Transitive item_le.
Proof. intros a b c; unfold item_le; apply date_le_trans. Qed.
#[global] Instance item_le_total : Total item_le.
Proof. intros a b; unfold item_le; apply date_le_total. Qed.
#[global] Instance row_ge_trans : Transitive row_ge.
Proof. intros a b c; unfold row_ge; intros H1 H2. by etrans. Qed.
#[global] Instance row_ge_total : Total row_ge.
Proof. intros a b; unfold row_ge. destruct (date_le_total (Date b) (Date a)); auto. Qed.

(** ** Sorted lists without repeated keys *)

Lemma StronglySorted_NoDup_strict {A} (R : relation A) (l : list A) :
  StronglySorted R l → NoDup l → StronglySorted (λ a b, R a b ∧ a ≠ b) l.
Proof.
  induction 1 as [|x l Hl IH Hx]; intros Hnd; [constructor|].
  apply NoDup_cons in Hnd as [Hnotin Hnd].
  constructor; [by apply IH|].
  rewrite Forall_forall in Hx |- *. intros y Hy. split; [by apply Hx|].
  intros ->. done.
Qed.

Lemma NoDup_fmap_elem_inj {A B} (f : A → B) (l : list A) (x y : A) :
  NoDup (f <$> l) → x ∈ l → y ∈ l → f x = f y → x = y.
Proof.
  induction l as [|a l IH]; csimpl; intros Hnd Hx Hy Hf.
  { by apply elem_of_nil in Hx. }
  apply NoDup_cons in Hnd as [Hnotin Hnd].
  apply elem_of_cons in Hx as [->|Hx]; apply elem_of_cons in Hy as [->|Hy].
  - done.
  - exfalso. apply Hnotin. rewrite Hf. by apply list_elem_of_fmap_2.
  - exfalso. apply Hnotin. rewrite <- Hf. by apply list_elem_of_fmap_2.
  - by apply IH.
Qed.

(** ** The sorted items and the frame *)

Lemma sorted_items_perm (daily : gmap pydate stats) :
  sorted_items daily ≡ₚ map_to_list daily.
Proof. apply merge_sort_Permutation. Qed.

Lemma sorted_items_sorted (daily : gmap pydate stats) :
  StronglySorted item_le (sorted_items daily).
Proof. apply StronglySorted_merge_sort; apply _. Qed.

Lemma sorted_items_keys_NoDup (daily : gmap pydate stats) :
  NoDup (sorted_items daily).*1.
Proof. rewrite sorted_items_perm. apply NoDup_fst_map_to_list. Qed.

Lemma sorted_items_keys_sorted (daily : gmap pydate stats) :
  StronglySorted date_lt (sorted_items daily).*1.
Proof.
  apply StronglySorted_NoDup_strict; [|apply sorted_items_keys_NoDup].
  eapply StronglySorted_fmap; [|apply sorted_items_sorted]. auto.
Qed.

(** The items of the dictionary in any order of iteration sort to the same
    list: the keys are distinct. *)
Lemma sorted_items_any_order (daily : gmap pydate stats) (l : list (pydate * stats)) :
  l ≡ₚ map_to_list daily → merge_sort item_le l = sorted_items daily.
Proof.
  intros Hperm. apply (Sorted_unique_strong item_le).
  - intros x1 x2 Hx1 Hx2 H12 H21.
    apply (NoDup_fmap_elem_inj fst (map_to_list daily)).
    + apply NoDup_fst_map_to_list.
    + by rewrite merge_sort_Permutation, Hperm in Hx1.
    + by rewrite sorted_items_perm in Hx2.
    + apply (anti_symm date_le); done.
  - apply Sorted_merge_sort. apply _.
  - apply Sorted_merge_sort. apply _.
  - rewrite merge_sort_Permutation, Hperm. symmetry. apply sorted_items_perm.
Qed.

Lemma elem_of_sorted_items (daily : gmap pydate stats) (d : pydate) (s : stats) :
  (d, s) ∈ sorted_items daily ↔ daily !! d = Some s.
Proof. rewrite sorted_items_perm. apply elem_of_map_to_list. Qed.

Lemma Date_row_of (it : pydate * stats) : Date (row_of it) = it.1.
Proof. by destruct it as [d s]. Qed.

Lemma extract_rows (gs : list pyval) :
  (extract_daily_stats gs).1 = row_of <$> sorted_items (daily_of gs).
Proof.
  unfold extract_daily_stats, frame_of.
  case_bool_decide as Hnil; simpl.
  - apply fmap_nil_inv in Hnil. by rewrite Hnil.
  - by rewrite <- list_fmap_compose.
Qed.

Lemma extract_dates (gs : list pyval) :
  Date <$> (extract_daily_stats gs).1 = (sorted_items (daily_of gs)).*1.
Proof.
  rewrite extract_rows, <- list_fmap_compose.
  apply list_fmap_ext. intros i it _. apply Date_row_of.
Qed.

Lemma elem_of_extract (gs : list pyval) (r : row) :
  r ∈ (extract_daily_stats gs).1 ↔
  ∃ d s, daily_of gs !! d = Some s ∧ r = row_of (d, s).
Proof.
  rewrite extract_rows, list_elem_of_fmap. split.
  - intros ([d s] & -> & Hin). exists d, s.
    by apply elem_of_sorted_items in Hin.
  - intros (d & s & Hin & ->). exists (d, s).
    by apply elem_of_sorted_items in Hin.
Qed.

(** ** Counting the games of a day *)

Lemma eq_str_spec (x : pyval) (s : string) : eq_str x s = true ↔ x = PStr s.
Proof.
  destruct x; simpl; try (split; [discriminate|intros [=]]).
  rewrite bool_decide_eq_true. split; [by intros ->|by intros [= ->]].
Qed.

Lemma count_nonneg (p : pyval → bool) (gs : list pyval) : 0 <= count p gs.
Proof. induction gs as [|g gs IH]; simpl; [lia|]. destruct (p g); lia. Qed.

Lemma count_pos_exists (p : pyval → bool) (gs : list pyval) :
  1 <= count p gs → ∃ g, g ∈ gs ∧ p g = true.
Proof.
  induction gs as [|g gs IH]; simpl; [lia|].
  destruct (p g) eqn:E.
  - intros _. exists g. split; [left|done].
  - intros H. destruct IH as (g' & Hin & Hp); [lia|].
    exists g'. split; [by right|done].
Qed.

Lemma loop_body_lookup (daily : gmap pydate stats) (g : pyval) (d : pydate) :
  loop_body daily g !! d =
    if played_on d g then
      Some (Stats (games (default (Stats 0 0) (daily !! d)) + 1)
                  (wins (default (Stats 0 0) (daily !! d))
                   + (if won_on d g then 1 else 0)))
    else daily !! d.
Proof.
  unfold loop_body, game_entry, played_on, won_on.
  destruct (game_fields g) as [[d' r]|e]; simpl; [|done].
  rewrite record_game_lookup.
  destruct (decide (d' = d)) as [->|Hne].
  - rewrite bool_decide_eq_true_2 by done. done.
  - rewrite bool_decide_eq_false_2 by done. done.
Qed.

Lemma foldl_loop_body_lookup (gs : list pyval) (daily : gmap pydate stats) (d : pydate) :
  foldl loop_body daily gs !! d =
    if bool_decide (count (played_on d) gs = 0) then daily !! d
    else Some (Stats (games (default (Stats 0 0) (daily !! d)) + count (played_on d) gs)
                     (wins (default (Stats 0 0) (daily !! d)) + count (won_on d) gs)).
Proof.
  revert daily. induction gs as [|g gs IH]; intros daily; simpl; [done|].
  rewrite IH, loop_body_lookup.
  pose proof (count_nonneg (played_on d) gs) as Hn.
  assert (won_on d g = true → played_on d g = true) as Hwp.
  { unfold won_on, played_on. destruct (game_fields g) as [[d' r]|e]; [|done].
    intros [H _]%andb_true_iff. done. }
  destruct (played_on d g) eqn:Ep.
  - rewrite (bool_decide_eq_false_2 (1 + _ = 0)) by lia. simpl.
    case_bool_decide as Hc.
    + rewrite Hc. f_equal.
      assert (count (won_on d) gs = 0) as ->; [|f_equal; lia].
      clear -Hc. induction gs as [|g' gs IH]; simpl in *; [done|].
      pose proof (count_nonneg (played_on d) gs).
      destruct (played_on d g') eqn:E; [lia|].
      assert (won_on d g' = false) as ->; [|apply IH; lia].
      unfold won_on, played_on in *.
      destruct (game_fields g') as [[d' r]|e]; [|done]. by rewrite E.
    + f_equal. f_equal; lia.
  - destruct (won_on d g); [by specialize (Hwp eq_refl)|].
    simpl. done.
Qed.

Lemma daily_of_lookup (gs : list pyval) (d : pydate) :
  daily_of gs !! d =
    if bool_decide (count (played_on d) gs = 0) then None
    else Some (Stats (count (played_on d) gs) (count (won_on d) gs)).
Proof.
  unfold daily_of. rewrite foldl_loop_body_lookup, lookup_empty. simpl.
  case_bool_decide; [done|]. done.
Qed.

Lemma daily_of_snoc (gs : list pyval) (g : pyval) :
  daily_of (gs ++ [g]) = loop_body (daily_of gs) g.
Proof. unfold daily_of. by rewrite foldl_app. Qed.

Lemma played_on_spec (d : pydate) (g : pyval) :
  played_on d g = true ↔ ∃ result, game_fields g = Ok (d, result).
Proof.
  unfold played_on. destruct (game_fields g) as [[d' r]|e].
  - rewrite bool_decide_eq_true. split.
    + intros ->. by exists r.
    + by intros (r' & [= -> _]).
  - split; [done|]. by intros (r & ?).
Qed.

Lemma won_on_spec (d : pydate) (g : pyval) :
  won_on d g = true ↔ game_fields g = Ok (d, PStr "win").
Proof.
  unfold won_on. destruct (game_fields g) as [[d' r]|e]; [|done].
  rewrite andb_true_iff, bool_decide_eq_true, eq_str_spec. split.
  - by intros [-> ->].
  - by intros [= -> ->].
Qed.

Lemma row_counts (gs : list pyval) (r : row) :
  r ∈ (extract_daily_stats gs).1 →
  Games r = count (played_on (Date r)) gs ∧ Wins r = count (won_on (Date r)) gs.
Proof.
  intros (d & s & Hs & ->)%elem_of_extract.
  rewrite daily_of_lookup in Hs. case_bool_decide; [done|].
  injection Hs as <-. done.
Qed.

(** ** Sides and skipped games *)

Lemma game_fields_color (g white : pyval) (w : string) :
  getitem g "white" = Ok white →
  getitem white "username" = Ok (PStr w) →
  game_fields g =
    fields_as (if bool_decide (lower w = username) then "white" else "black") g.
Proof.
  intros Hw Hu. unfold game_fields, fields_as.
  destruct (getitem g "end_time") as [t|e]; simpl; [|done].
  destruct (utcfromtimestamp_date t) as [d|e]; simpl; [|done].
  rewrite Hw. simpl. rewrite Hu. simpl. done.
Qed.

Lemma loop_body_raise (daily : gmap pydate stats) (g : pyval) (e : exn) :
  game_fields g = Raise e → loop_body daily g = daily.
Proof. intros H. unfold loop_body, game_entry. by rewrite H. Qed.

Lemma extract_skips (pre post : list pyval) (g : pyval) (e : exn) :
  game_fields g = Raise e →
  extract_daily_stats (pre ++ g :: post) = extract_daily_stats (pre ++ post).
Proof.
  intros H. unfold extract_daily_stats, daily_of.
  rewrite !foldl_app. simpl. by rewrite (loop_body_raise _ _ _ H).
Qed.

(** ** The two orders of the rows *)

Lemma extract_dates_sorted (gs : list pyval) :
  StronglySorted date_lt (Date <$> (extract_daily_stats gs).1).
Proof. rewrite extract_dates. apply sorted_items_keys_sorted. Qed.

(** Any arrangement of the rows that is descending by date is the reversed
    frame: the outcome of the sort does not depend on the algorithm. *)
Lemma descending_is_reverse (l l' : list row) :
  StronglySorted date_lt (Date <$> l) → l' ≡ₚ l → Sorted row_ge l' →
  l' = reverse l.
Proof.
  intros Hs Hperm Hdesc.
  assert (NoDup (Date <$> l)) as Hnd.
  { clear -Hs. induction (Date <$> l) as [|a k IH]; [constructor|].
    apply StronglySorted_cons in Hs as [Ha Hk].
    constructor; [|by apply IH].
    intros Hin. rewrite Forall_forall in Ha. by destruct (Ha a Hin). }
  assert (Sorted (flip row_ge) l) as Hasc.
  { apply StronglySorted_Sorted.
    clear -Hs. induction l as [|a l IH]; [constructor|].
    csimpl in Hs. apply StronglySorted_cons in Hs as [Ha Hl].
    constructor; [by apply IH|].
    rewrite Forall_fmap in Ha. eapply Forall_impl; [exact Ha|].
    intros b [Hab _]. exact Hab. }
  apply (Sorted_unique_strong row_ge).
  - intros x1 x2 Hx1 Hx2 H12 H21.
    apply (NoDup_fmap_elem_inj Date l); [done| | |].
    + by rewrite Hperm in Hx1.
    + by rewrite elem_of_reverse in Hx2.
    + apply (anti_symm date_le); done.
  - exact Hdesc.
  - apply (Sorted_reverse (flip row_ge)). exact Hasc.
  - rewrite Hperm. by rewrite reverse_Permutation.
Qed.

Lemma sort_values_desc_reverse (l : list row) :
  StronglySorted date_lt (Date <$> l) → sort_values_desc l = reverse l.
Proof.
  intros Hs. apply descending_is_reverse; [done| |].
  - apply merge_sort_Permutation.
  - apply Sorted_merge_sort. apply _.
Qed.

Lemma dates_desc_sorted (l : list row) :
  StronglySorted date_lt (Date <$> l) → StronglySorted date_gt (Date <$> reverse l).
Proof.
  intros Hs. rewrite fmap_reverse.
  induction (Date <$> l) as [|a k IH]; [constructor|].
  apply StronglySorted_cons in Hs as [Ha Hk].
  rewrite reverse_cons. apply StronglySorted_app_2.
  - intros x1 x2 Hx1 Hx2. apply list_elem_of_singleton in Hx2 as ->.
    rewrite elem_of_reverse in Hx1. rewrite Forall_forall in Ha.
    unfold date_gt. by apply Ha.
  - by apply IH.
  - repeat constructor.
Qed.

(** ** The fetcher on malformed elements *)

Lemma bullet_only_raise (l : list pyval) (g : pyval) :
  g ∈ l → (∀ d, g ≠ PDict d) → ∃ e, bullet_only l = Raise e.
Proof.
  intros Hin Hg. induction l as [|a l IH]; [by apply elem_of_nil in Hin|].
  apply elem_of_cons in Hin as [<-|Hin]; simpl.
  - destruct g; simpl; eauto. by destruct (Hg d).
  - destruct (get a "time_class") as [tc|e]; simpl; [|eauto].
    destruct (IH Hin) as [e ->]. simpl. eauto.
Qed.

(** ** The win rate on small days *)

Lemma agrees_below_80 :
  forallb (λ g, forallb (agrees g) (seqZ 0 (g + 1))) (seqZ 1 79) = true.
Proof. vm_compute. reflexivity. Qed.

Lemma win_rate_below_80 (wins games : Z) :
  1 <= games < 80 → 0 <= wins <= games →
  win_rate wins games = spec_win_rate TieEven wins games.
Proof.
  intros Hg Hw. pose proof agrees_below_80 as H.
  rewrite forallb_forall in H.
  specialize (H games). rewrite forallb_forall in H.
  specialize (H ltac:(apply list_elem_of_In, elem_of_seqZ; lia) wins
                ltac:(apply list_elem_of_In, elem_of_seqZ; lia)).
  unfold agrees in H. by apply bool_decide_eq_true in H.
Qed.

(** * The claims *)

(** C1: every row the aggregator produces, for any list of games, has
    [0 <= Wins <= Games], and [Games >= 1]: a row exists only for a date
    on which a game was aggregated. *)
Theorem C1_row_counts_in_range (gs : list pyval) (r : row) :
  r ∈ (extract_daily_stats gs).1 →
  0 <= Wins r <= Games r ∧ 1 <= Games r
  ∧ ∃ g result, g ∈ gs ∧ game_fields g = Ok (Date r, result).
Proof.
  intros Hr. pose proof (row_counts gs r Hr) as [Hgames _].
  apply elem_of_extract in Hr as (d & s & Hs & ->).
  apply daily_of_ok in Hs as [Hw Hg]. simpl in *.
  split; [exact Hw|]. split; [exact Hg|].
  destruct (count_pos_exists (played_on d) gs) as (g & Hin & Hp); [lia|].
  apply played_on_spec in Hp as [result Hp]. eauto.
Qed.

Lemma C1_row_counts_in_range_witness :
  let r := Row (2024, 1, 1) 2 1 (win_rate 1 2) (flag 2) in
  0 <= Wins r <= Games r ∧ 1 <= Games r
  ∧ ∃ g result, g ∈ [won_game jan1; PNone; lost_game (jan1 + 60)]
                ∧ game_fields g = Ok (Date r, result).
Proof.
  apply (C1_row_counts_in_range [won_game jan1; PNone; lost_game (jan1 + 60)]).
  vm_compute. constructor.
Defined.

(** C2, as the code has it: the win rate of a row is the float64 quotient
    of its wins by its games, times 100, rounded to one decimal the way
    numpy rounds (times ten, to the nearest integer with ties to even,
    divided by ten).  For a row of fewer than 80 games this is
    [100 × wins / games] rounded to one decimal place, ties to even; seven
    games with three wins give 42.9. *)
Theorem C2_win_rate_is_float_rounding :
  (∀ gs r,
     r ∈ (extract_daily_stats gs).1 →
     WinRate r
     = round1 (fmul (fdiv (float_of_int (Wins r)) (float_of_int (Games r)))
                    (float_of_int 100)))
  ∧ (∀ gs r,
       r ∈ (extract_daily_stats gs).1 →
       Games r < 80 →
       WinRate r = spec_win_rate TieEven (Wins r) (Games r))
  ∧ (extract_daily_stats (day_games jan1 7 3)).1
    = [Row (2024, 1, 1) 7 3 (tenths 429) "⚠️ Overuse"]
  ∧ tenths 429 = S754_finite false 6037638250443571 (-47).
Proof.
  split; [|split; [|split]].
  - intros gs r (d & s & _ & ->)%elem_of_extract. reflexivity.
  - intros gs r (d & s & Hs & ->)%elem_of_extract Hlt. simpl in *.
    apply daily_of_ok in Hs as [Hw Hg].
    apply win_rate_below_80; lia.
  - vm_compute. reflexivity.
  - vm_compute. reflexivity.
Qed.

Lemma C2_win_rate_is_float_rounding_witness :
  let r := Row (2024, 1, 1) 7 3 (tenths 429) "⚠️ Overuse" in
  WinRate r = spec_win_rate TieEven (Wins r) (Games r).
Proof.
  apply (proj1 (proj2 C2_win_rate_is_float_rounding) (day_games jan1 7 3)).
  - vm_compute. constructor.
  - vm_compute. reflexivity.
Defined.

(** C2 as stated fails: on a day of 80 games with 23 wins the exact rate
    is 28.75 and the row holds 28.7, where a tie to even or upwards gives
    28.8; on a day of 80 games with 49 wins the exact rate is 61.25 and the
    row holds 61.3, where a tie downwards (or to even) gives 61.2.  The
    quotient 23/80 is rounded before it is multiplied by 100, which gives
    28.749999999999996. *)
Lemma C2_win_rate_is_not_exact_rounding :
  let gs : list pyval :=
    (day_games jan1 80 23 ++ day_games (jan1 + day) 80 49)%list in
  (extract_daily_stats gs).1
  = [Row (2024, 1, 1) 80 23 (tenths 287) "⚠️ Overuse";
     Row (2024, 1, 2) 80 49 (tenths 613) "⚠️ Overuse"]
  ∧ 1000 * 23 = 287 * 80 + 40 ∧ 1000 * 49 = 612 * 80 + 40
  ∧ Forall (λ t, ∃ r, r ∈ (extract_daily_stats gs).1
                      ∧ WinRate r ≠ spec_win_rate t (Wins r) (Games r))
           [TieEven; TieUp; TieDown].
Proof.
  intros gs.
  assert ((extract_daily_stats gs).1
          = [Row (2024, 1, 1) 80 23 (tenths 287) "⚠️ Overuse";
             Row (2024, 1, 2) 80 49 (tenths 613) "⚠️ Overuse"]) as Hrows.
  { vm_compute. reflexivity. }
  split; [exact Hrows|]. split; [reflexivity|]. split; [reflexivity|].
  rewrite Hrows. repeat constructor.
  - exists (Row (2024, 1, 1) 80 23 (tenths 287) "⚠️ Overuse").
    split; [constructor|]. vm_compute. discriminate.
  - exists (Row (2024, 1, 1) 80 23 (tenths 287) "⚠️ Overuse").
    split; [constructor|]. vm_compute. discriminate.
  - exists (Row (2024, 1, 2) 80 49 (tenths 613) "⚠️ Overuse").
    split; [do 2 constructor|]. vm_compute. discriminate.
Qed.

(** C3: the side of the perspective player is found by comparing
    lower-cased usernames: a game whose white player is the configured user
    in any letter case is read from the white side, a game whose black
    player is (and whose white player is not) from the black side; and a
    game for which reading the timestamp, the side or the result raises is
    skipped, the aggregation going on as if the game were not in the list. *)
Theorem C3_side_by_lowercase_and_skip :
  (∀ g white w,
     getitem g "white" = Ok white →
     getitem white "username" = Ok (PStr w) →
     lower w = lower "cand5d" →
     game_fields g = fields_as "white" g)
  ∧ (∀ g white w black b,
       getitem g "white" = Ok white →
       getitem white "username" = Ok (PStr w) →
       lower w ≠ lower "cand5d" →
       getitem g "black" = Ok black →
       getitem black "username" = Ok (PStr b) →
       lower b = lower "cand5d" →
       game_fields g = fields_as "black" g)
  ∧ (∀ pre g post e,
       game_fields g = Raise e →
       extract_daily_stats (pre ++ g :: post) = extract_daily_stats (pre ++ post)).
Proof.
  split; [|split].
  - intros g white w Hw Hu Hl.
    rewrite (game_fields_color g white w Hw Hu).
    by rewrite bool_decide_eq_true_2.
  - intros g white w black b Hw Hu Hl _ _ _.
    rewrite (game_fields_color g white w Hw Hu).
    by rewrite bool_decide_eq_false_2.
  - intros pre g post e. apply extract_skips.
Qed.

Lemma C3_side_by_lowercase_and_skip_witness :
  game_fields (won_game jan1) = Ok ((2024, 1, 1), PStr "win")
  ∧ game_fields (sample_game jan1 (player "rival" "win") (player "Cand5D" "timeout"))
    = Ok ((2024, 1, 1), PStr "timeout")
  ∧ extract_daily_stats ([won_game jan1] ++ PDict ∅ :: [lost_game (jan1 + day)])
    = extract_daily_stats ([won_game jan1] ++ [lost_game (jan1 + day)]).
Proof.
  destruct C3_side_by_lowercase_and_skip as (Hwhite & Hblack & Hskip).
  split; [|split].
  - rewrite (Hwhite (won_game jan1) (player "Cand5D" "win") "Cand5D");
      reflexivity.
  - rewrite (Hblack (sample_game jan1 (player "rival" "win") (player "Cand5D" "timeout"))
               (player "rival" "win") "rival" (player "Cand5D" "timeout") "Cand5D");
      try reflexivity.
    vm_compute. discriminate.
  - apply (Hskip _ _ _ (Exn KeyError "'end_time'")). reflexivity.
Defined.

(** C4: a game is counted as a win exactly when the result of the
    perspective player's side is the string "win".  Aggregating one more
    game whose result is "win" adds one to the games and one to the wins of
    its day; a game with any other result adds one to the games and leaves
    the wins unchanged.  In the produced rows, [Games] is the number of
    aggregated games of that date and [Wins] the number of those whose
    result is "win". *)
Theorem C4_win_iff_result_is_win :
  (∀ gs g date result,
     game_fields g = Ok (date, result) →
     let before := default (Stats 0 0) (daily_of gs !! date) in
     (result = PStr "win" →
      daily_of (gs ++ [g]) !! date
      = Some (Stats (games before + 1) (wins before + 1)))
     ∧ (result ≠ PStr "win" →
        daily_of (gs ++ [g]) !! date
        = Some (Stats (games before + 1) (wins before))))
  ∧ (∀ gs r,
       r ∈ (extract_daily_stats gs).1 →
       Games r = count (played_on (Date r)) gs
       ∧ Wins r = count (won_on (Date r)) gs)
  ∧ (∀ d g, played_on d g = true ↔ ∃ result, game_fields g = Ok (d, result))
  ∧ (∀ d g, won_on d g = true ↔ game_fields g = Ok (d, PStr "win")).
Proof.
  split; [|split; [|split]].
  - intros gs g date result Hf before.
    assert (played_on date g = true) as Hp by (apply played_on_spec; eauto).
    rewrite daily_of_snoc, loop_body_lookup, Hp. fold before.
    split; intros Hr.
    + assert (won_on date g = true) as -> by (apply won_on_spec; by rewrite Hf, Hr).
      done.
    + destruct (won_on date g) eqn:Hw.
      * apply won_on_spec in Hw. rewrite Hf in Hw. by injection Hw.
      * do 2 f_equal. lia.
  - apply row_counts.
  - apply played_on_spec.
  - apply won_on_spec.
Qed.

Lemma C4_win_iff_result_is_win_witness :
  (daily_of ([won_game jan1] ++ [won_game (jan1 + 60)]) !! (2024, 1, 1)
   = Some (Stats 2 2))
  ∧ (daily_of ([won_game jan1] ++ [lost_game (jan1 + 60)]) !! (2024, 1, 1)
     = Some (Stats 2 1))
  ∧ (let r := Row (2024, 1, 1) 2 1 (win_rate 1 2) (flag 2) in
     let gs := [won_game jan1; lost_game (jan1 + 60)] in
     Games r = count (played_on (Date r)) gs ∧ Wins r = count (won_on (Date r)) gs).
Proof.
  destruct C4_win_iff_result_is_win as (Hstep & Hrows & _ & _).
  split; [|split].
  - apply (Hstep [won_game jan1] (won_game (jan1 + 60)) (2024, 1, 1) (PStr "win"));
      reflexivity.
  - apply (Hstep [won_game jan1] (lost_game (jan1 + 60)) (2024, 1, 1) (PStr "checkmated"));
      [reflexivity|discriminate].
  - apply (Hrows [won_game jan1; lost_game (jan1 + 60)]).
    vm_compute. constructor.
Defined.

(** C5: the flag of a row is the overuse marking exactly when the row has
    more than 6 games, and the OK marking otherwise: six games on a day
    give the OK marking, seven the overuse marking. *)
Theorem C5_flag_iff_more_than_six :
  (∀ gs r,
     r ∈ (extract_daily_stats gs).1 →
     (Flag r = "⚠️ Overuse" ↔ 6 < Games r)
     ∧ (Flag r = "✅ OK" ↔ Games r <= 6))
  ∧ Flag <$> (extract_daily_stats (won_game <$> seqZ jan1 6)).1 = ["✅ OK"]
  ∧ Flag <$> (extract_daily_stats (won_game <$> seqZ jan1 7)).1 = ["⚠️ Overuse"].
Proof.
  split; [|split; reflexivity].
  intros gs r (d & s & _ & ->)%elem_of_extract. simpl. unfold flag.
  case_bool_decide; split; split; try done; try lia.
Qed.

Lemma C5_flag_iff_more_than_six_witness :
  let r := Row (2024, 1, 1) 7 7 (win_rate 7 7) (flag 7) in
  (Flag r = "⚠️ Overuse" ↔ 6 < Games r) ∧ (Flag r = "✅ OK" ↔ Games r <= 6).
Proof.
  apply (proj1 C5_flag_iff_more_than_six (won_game <$> seqZ jan1 7)).
  vm_compute. constructor.
Defined.

(** C6: the rows handed to the chart are in strictly ascending order of
    date, the rows handed to the table are the same rows in the reverse,
    strictly descending order; games played on 2024-01-01, 2024-01-03 and
    2024-01-02 give the chart order 01-01, 01-02, 01-03 and the table order
    01-03, 01-02, 01-01. *)
Theorem C6_chart_ascending_table_descending :
  (∀ gs,
     let df := (extract_daily_stats gs).1 in
     StronglySorted date_lt (Date <$> df)
     ∧ Forall (λ t, trace_dates t = Date <$> df) (data (plot df))
     ∧ sort_values_desc df = reverse df
     ∧ StronglySorted date_gt (Date <$> sort_values_desc df))
  ∧ (∀ frame_to_html net today,
       df net today ≠ [] →
       table_html frame_to_html net today = frame_to_html (reverse (df net today)))
  ∧ (let gs := [won_game jan1; lost_game (jan1 + 2 * day); won_game (jan1 + day)] in
     Date <$> (extract_daily_stats gs).1 = [(2024, 1, 1); (2024, 1, 2); (2024, 1, 3)]
     ∧ Date <$> sort_values_desc (extract_daily_stats gs).1
       = [(2024, 1, 3); (2024, 1, 2); (2024, 1, 1)]).
Proof.
  split; [|split].
  - intros gs df. pose proof (extract_dates_sorted gs) as Hs. fold df in Hs.
    split; [exact Hs|]. split; [|split].
    + unfold plot. case_bool_decide; simpl; repeat constructor.
    + by apply sort_values_desc_reverse.
    + rewrite sort_values_desc_reverse by done. by apply dates_desc_sorted.
  - intros frame_to_html net today Hne. unfold table_html, df_table.
    rewrite bool_decide_eq_true_2 by done.
    unfold df. rewrite sort_values_desc_reverse; [done|apply extract_dates_sorted].
  - split; reflexivity.
Qed.

Lemma C6_chart_ascending_table_descending_witness :
  let net : network := λ u _,
    Ok (Response 200 "OK" u (Ok (PDict {["games" := PList [won_game jan1]]}))) in
  table_html (λ _, "<table/>") net (2024, 1, 15)
  = (λ _, "<table/>") (reverse (df net (2024, 1, 15))).
Proof.
  intros net.
  apply (proj1 (proj2 C6_chart_ascending_table_descending) (λ _, "<table/>") net (2024, 1, 15)).
  vm_compute. discriminate.
Defined.

(** C7: a transport failure, an error status (the 4xx and 5xx statuses
    [raise_for_status] rejects) or a body that cannot be decoded or is not
    a JSON object, or whose list of games holds an element that is not an
    object, makes the fetcher print one line naming the year and the month
    and return the empty list; the fetcher always returns: either the
    bullet games with nothing printed, or the empty list with that line.
    When one of the two monthly fetches fails and the other succeeds, the
    combined games are those of the month that succeeded and the run goes on
    to aggregate them. *)
Theorem C7_fetch_failures_are_logged_and_empty :
  (∀ net user year month,
     (∃ gs, fetch_body net user year month = Ok gs
            ∧ fetch_bullet_games net user year month = (gs, []))
     ∨ (∃ e, fetch_body net user year month = Raise e
             ∧ fetch_bullet_games net user year month
               = ([], ["Failed to load " +:+ fmt_d year +:+ "-" +:+ fmt_02d month
                       +:+ ": " +:+ exn_str e])))
  ∧ (∀ net user year month e,
       net (games_url user year month) headers = Raise e →
       fetch_bullet_games net user year month = ([], [failed_to_load year month e]))
  ∧ (∀ net user year month res,
       net (games_url user year month) headers = Ok res →
       400 <= status_code res < 600 →
       ∃ e, exn_cls e = HTTPError
            ∧ fetch_bullet_games net user year month
              = ([], [failed_to_load year month e]))
  ∧ (∀ net user year month res e,
       net (games_url user year month) headers = Ok res →
       json_body res = Raise e →
       ∃ e', fetch_bullet_games net user year month
             = ([], [failed_to_load year month e']))
  ∧ (∀ net user year month res v,
       net (games_url user year month) headers = Ok res →
       json_body res = Ok v →
       (∀ d, v ≠ PDict d) →
       ∃ e', fetch_bullet_games net user year month
             = ([], [failed_to_load year month e']))
  ∧ (∀ net user year month res d l g,
       net (games_url user year month) headers = Ok res →
       json_body res = Ok (PDict d) →
       d !! "games" = Some (PList l) →
       g ∈ l → (∀ d', g ≠ PDict d') →
       ∃ e', fetch_bullet_games net user year month
             = ([], [failed_to_load year month e']))
  ∧ (∀ to_html frame_to_html net today e gs,
       fetch_bullet_games net username (last_month today).1 (last_month today).2
       = ([], [failed_to_load (last_month today).1 (last_month today).2 e]) →
       fetch_bullet_games net username (this_month today).1 (this_month today).2
       = (gs, []) →
       games_combined net today = gs
       ∧ df net today = (extract_daily_stats gs).1
       ∧ ∃ out, stdout (main to_html frame_to_html net today)
                = failed_to_load (last_month today).1 (last_month today).2 e :: out)
  ∧ (∀ to_html frame_to_html net today e gs,
       fetch_bullet_games net username (last_month today).1 (last_month today).2
       = (gs, []) →
       fetch_bullet_games net username (this_month today).1 (this_month today).2
       = ([], [failed_to_load (this_month today).1 (this_month today).2 e]) →
       games_combined net today = gs
       ∧ df net today = (extract_daily_stats gs).1
       ∧ ∃ out, stdout (main to_html frame_to_html net today)
                = failed_to_load (this_month today).1 (this_month today).2 e :: out).
Proof.
  split; [|split; [|split; [|split; [|split; [|split; [|split]]]]]].
  - intros net user year month. unfold fetch_bullet_games.
    destruct (fetch_body net user year month) as [gs|e]; [left|right]; eauto.
  - intros net user year month e H.
    unfold fetch_bullet_games, fetch_body. by rewrite H.
  - intros net user year month res H Hst.
    unfold fetch_bullet_games, fetch_body. rewrite H. simpl.
    unfold raise_for_status.
    destruct (decide (status_code res < 500)).
    + rewrite bool_decide_eq_true_2 by lia. simpl.
      eexists. split; [|reflexivity]. reflexivity.
    + rewrite bool_decide_eq_false_2 by lia.
      rewrite bool_decide_eq_true_2 by lia. simpl.
      eexists. split; [|reflexivity]. reflexivity.
  - intros net user year month res e H Hb.
    unfold fetch_bullet_games, fetch_body. rewrite H. simpl.
    destruct (raise_for_status res); simpl; [|eauto].
    rewrite Hb. simpl. eauto.
  - intros net user year month res v H Hb Hv.
    unfold fetch_bullet_games, fetch_body. rewrite H. simpl.
    destruct (raise_for_status res); simpl; [|eauto].
    rewrite Hb. simpl.
    destruct v; simpl; eauto. by destruct (Hv d).
  - intros net user year month res d l g H Hb Hd Hin Hg.
    unfold fetch_bullet_games, fetch_body. rewrite H. simpl.
    destruct (raise_for_status res); simpl; [|eauto].
    rewrite Hb. simpl. rewrite Hd. simpl.
    destruct (bullet_only_raise l g Hin Hg) as [e ->]. eauto.
  - intros to_html frame_to_html net today e gs Hlast Hthis.
    assert (games_combined net today = gs) as Hgs.
    { unfold games_combined, fetch_last, fetch_this. by rewrite Hlast, Hthis. }
    split; [exact Hgs|]. split; [unfold df; by rewrite Hgs|].
    unfold main, fetch_last. rewrite Hlast. simpl. eauto.
  - intros to_html frame_to_html net today e gs Hlast Hthis.
    assert (games_combined net today = gs) as Hgs.
    { unfold games_combined, fetch_last, fetch_this. rewrite Hlast, Hthis.
      simpl. by rewrite app_nil_r. }
    split; [exact Hgs|]. split; [unfold df; by rewrite Hgs|].
    unfold main, fetch_last, fetch_this. rewrite Hlast, Hthis. simpl. eauto.
Qed.

Lemma C7_fetch_failures_are_logged_and_empty_witness :
  games_combined january_only (2024, 1, 15) = [won_game jan1; lost_game (jan1 + 60)]
  ∧ df january_only (2024, 1, 15)
    = (extract_daily_stats [won_game jan1; lost_game (jan1 + 60)]).1
  ∧ ∃ out, stdout (main (λ _, "<div/>") (λ _, "<table/>") january_only (2024, 1, 15))
           = "Failed to load 2023-12: Connection refused" :: out.
Proof.
  destruct C7_fetch_failures_are_logged_and_empty
    as (_ & _ & _ & _ & _ & _ & Hlast & _).
  apply (Hlast (λ _, "<div/>") (λ _, "<table/>") january_only (2024, 1, 15)
               (Exn ConnectionError "Connection refused")
               [won_game jan1; lost_game (jan1 + 60)]).
  - vm_compute. reflexivity.
  - vm_compute. reflexivity.
Defined.

(** C8: aggregating the empty list returns the empty frame, no error; and
    whenever the frame of the run is empty, in particular when no game was
    fetched, the run still writes the whole document, its chart being the
    empty figure titled "No Bullet Games Found" and its table section the
    placeholder paragraph. *)
Theorem C8_no_data_document :
  extract_daily_stats [] = ([], ["No bullet games found."])
  ∧ (∀ net today, games_combined net today = [] → df net today = [])
  ∧ (∀ to_html frame_to_html net today,
       df net today = [] →
       fig net today = no_data_figure
       ∧ table_html frame_to_html net today = no_data_table
       ∧ index_html (main to_html frame_to_html net today)
         = html_head +:+ to_html no_data_figure +:+ html_mid
           +:+ no_data_table +:+ html_tail).
Proof.
  split; [reflexivity|split].
  - intros net today H. unfold df. by rewrite H.
  - intros to_html frame_to_html net today H.
    assert (fig net today = no_data_figure) as Hfig.
    { unfold fig, plot. rewrite H. reflexivity. }
    assert (table_html frame_to_html net today = no_data_table) as Htab.
    { unfold table_html. rewrite H. reflexivity. }
    split; [done|split; [done|]].
    unfold main, html_content. simpl. by rewrite Hfig, Htab.
Qed.

Lemma C8_no_data_document_witness :
  fig offline (2025, 1, 3) = no_data_figure
  ∧ table_html (λ _, "<table/>") offline (2025, 1, 3) = no_data_table
  ∧ index_html (main (λ _, "<div/>") (λ _, "<table/>") offline (2025, 1, 3))
    = html_head +:+ (λ _, "<div/>") no_data_figure +:+ html_mid
      +:+ no_data_table +:+ html_tail.
Proof.
  apply (proj2 (proj2 C8_no_data_document)).
  apply (proj1 (proj2 C8_no_data_document)).
  reflexivity.
Defined.

(** C9: the previous month of January of year Y is December of year Y-1,
    and of any other month it is the month before in the same year; for
    January 2025 it is (2024, 12). *)
Theorem C9_last_month_rollover :
  (∀ y d, last_month (y, 1, d) = (y - 1, 12))
  ∧ (∀ y m d, m ≠ 1 → last_month (y, m, d) = (y, m - 1))
  ∧ (∀ y m d, this_month (y, m, d) = (y, m))
  ∧ (∀ d, last_month (2025, 1, d) = (2024, 12)).
Proof.
  split; [|split; [|split]].
  - intros y d. reflexivity.
  - intros y m d Hm. unfold last_month. by rewrite bool_decide_eq_false_2.
  - reflexivity.
  - intros d. reflexivity.
Qed.

Lemma C9_last_month_rollover_witness :
  last_month (2024, 7, 4) = (2024, 7 - 1).
Proof.
  apply (proj1 (proj2 C9_last_month_rollover) 2024 7 4). lia.
Defined.

(** C10: when the lower-cased white username differs from the configured
    user, the game is read from the black side; the black username is not
    consulted, so replacing it changes nothing, and a game between two
    other players is counted with the black player's result. *)
Theorem C10_black_side_is_the_fallback :
  (∀ g white w,
     getitem g "white" = Ok white →
     getitem white "username" = Ok (PStr w) →
     lower w ≠ username →
     game_fields g = fields_as "black" g)
  ∧ (∀ (d db : gmap string pyval) white w (n n' : pyval),
       d !! "white" = Some white →
       getitem white "username" = Ok (PStr w) →
       lower w ≠ username →
       game_fields (PDict (<["black" := PDict (<["username" := n]> db)]> d))
       = game_fields (PDict (<["black" := PDict (<["username" := n']> db)]> d)))
  ∧ extract_daily_stats
      [sample_game jan1 (player "alice" "resigned") (player "bob" "win")]
    = ([Row (2024, 1, 1) 1 1 (win_rate 1 1) (flag 1)], []).
Proof.
  assert (∀ g white w,
     getitem g "white" = Ok white →
     getitem white "username" = Ok (PStr w) →
     lower w ≠ username →
     game_fields g = fields_as "black" g) as Hblack.
  { intros g white w Hw Hu Hl.
    rewrite (game_fields_color g white w Hw Hu).
    by rewrite bool_decide_eq_false_2. }
  split; [exact Hblack|split; [|reflexivity]].
  intros d db white w n n' Hw Hu Hl.
  rewrite (Hblack _ white w), (Hblack _ white w); try done.
  - unfold fields_as. simpl.
    rewrite !(lookup_insert_ne _ "black" "end_time") by done.
    destruct (d !! "end_time") as [t|]; simpl; [|done].
    destruct (utcfromtimestamp_date t) as [dt|e]; simpl; [|done].
    rewrite !lookup_insert_eq. simpl.
    rewrite !(lookup_insert_ne _ "username" "result") by done. done.
  - simpl. rewrite lookup_insert_ne by done. by rewrite Hw.
  - simpl. rewrite lookup_insert_ne by done. by rewrite Hw.
Qed.

Lemma C10_black_side_is_the_fallback_witness :
  game_fields (sample_game jan1 (player "alice" "resigned") (player "bob" "win"))
  = fields_as "black" (sample_game jan1 (player "alice" "resigned") (player "bob" "win")).
Proof.
  apply (proj1 C10_black_side_is_the_fallback _ (player "alice" "resigned") "alice").
  - reflexivity.
  - reflexivity.
  - vm_compute. discriminate.
Defined.

(** * Further properties of the code *)

(** ** The fetcher on well-formed responses *)

Lemma is_bullet_dict (d : gmap string pyval) :
  is_bullet (PDict d) = eq_str (default PNone (d !! "time_class")) "bullet".
Proof. simpl. by destruct (d !! "time_class"). Qed.

Lemma bullet_only_cons_dict (d : gmap string pyval) (l : list pyval) :
  bullet_only (PDict d :: l) =
    rest ← bullet_only l;
    Ok (if is_bullet (PDict d) then PDict d :: rest else rest).
Proof. rewrite is_bullet_dict. reflexivity. Qed.

Lemma bullet_only_dicts (l : list pyval) :
  Forall (λ g, is_dict g = true) l →
  bullet_only l = Ok (filter (λ g, is_bullet g = true) l).
Proof.
  induction 1 as [|g l Hg Hl IH]; [done|].
  destruct g; try discriminate.
  rewrite bullet_only_cons_dict, IH, filter_cons.
  destruct (is_bullet (PDict d)) eqn:E; case_decide; done.
Qed.

Lemma bullet_only_elem (l gs : list pyval) (g : pyval) :
  bullet_only l = Ok gs → g ∈ gs → g ∈ l ∧ is_bullet g = true.
Proof.
  revert gs. induction l as [|a l IH]; intros gs.
  { intros [= <-] Hin. by apply elem_of_nil in Hin. }
  destruct a; try discriminate.
  rewrite bullet_only_cons_dict.
  destruct (bullet_only l) as [rest|e]; [|discriminate].
  destruct (is_bullet (PDict d)) eqn:Eb.
  - intros [= <-] [->|Hin]%elem_of_cons.
    + split; [left|done].
    + destruct (IH rest eq_refl Hin). split; [by right|done].
  - intros [= <-] Hin. destruct (IH rest eq_refl Hin). split; [by right|done].
Qed.

Lemma is_bullet_spec (g : pyval) :
  is_bullet g = true ↔ ∃ d, g = PDict d ∧ d !! "time_class" = Some (PStr "bullet").
Proof.
  split.
  - destruct g; simpl; try discriminate.
    destruct (d !! "time_class") as [tc|] eqn:E; [|discriminate].
    intros ->%eq_str_spec. eauto.
  - intros (d & -> & E). simpl. rewrite E. by apply eq_str_spec.
Qed.

Lemma raise_for_status_ok (res : response) :
  ¬ (400 <= status_code res < 600) → raise_for_status res = Ok ().
Proof.
  intros H. unfold raise_for_status.
  rewrite !bool_decide_eq_false_2 by lia. done.
Qed.

Lemma fetch_body_elem (net : network) (user : string) (year month : Z)
    (gs : list pyval) (g : pyval) :
  fetch_body net user year month = Ok gs → g ∈ gs → is_bullet g = true.
Proof.
  unfold fetch_body.
  destruct (net _ _) as [res|e]; simpl; [|discriminate].
  destruct (raise_for_status res); simpl; [|discriminate].
  destruct (json_body res) as [body|e]; simpl; [|discriminate].
  destruct (get_default body "games" (PList [])) as [v|e]; simpl; [|discriminate].
  destruct (iterate v) as [elems|e]; simpl; [|discriminate].
  intros Hb Hin. by destruct (bullet_only_elem elems gs g Hb Hin).
Qed.

(** X1: when the response has no error status, its body is a JSON object
    and its "games" entry is a list of objects, the fetcher returns exactly
    the games of that list whose time class is the string "bullet", in the
    order of the list, and prints nothing. *)
Theorem X1_fetch_keeps_the_bullet_games
    (net : network) (user : string) (year month : Z) (res : response)
    (d : gmap string pyval) (l : list pyval) :
  net (games_url user year month) headers = Ok res →
  ¬ (400 <= status_code res < 600) →
  json_body res = Ok (PDict d) →
  d !! "games" = Some (PList l) →
  Forall (λ g, is_dict g = true) l →
  fetch_bullet_games net user year month
  = (filter (λ g, is_bullet g = true) l, []).
Proof.
  intros Hnet Hst Hbody Hgames Hdicts.
  unfold fetch_bullet_games, fetch_body. rewrite Hnet. simpl.
  rewrite (raise_for_status_ok res Hst). simpl.
  rewrite Hbody. simpl. rewrite Hgames. simpl.
  by rewrite (bullet_only_dicts l Hdicts).
Qed.

Lemma X1_fetch_keeps_the_bullet_games_witness :
  fetch_bullet_games january_only "cand5d" 2024 1
  = (filter (λ g, is_bullet g = true)
       [won_game jan1; blitz_game (jan1 + 30); lost_game (jan1 + 60)], []).
Proof.
  apply (X1_fetch_keeps_the_bullet_games january_only "cand5d" 2024 1
           (Response 200 "OK" "https://api.chess.com/pub/player/cand5d/games/2024/01"
              (Ok (PDict {["games" :=
                 PList [won_game jan1; blitz_game (jan1 + 30); lost_game (jan1 + 60)]]})))
           {["games" :=
              PList [won_game jan1; blitz_game (jan1 + 30); lost_game (jan1 + 60)]]}).
  - vm_compute. reflexivity.
  - simpl. lia.
  - reflexivity.
  - reflexivity.
  - repeat constructor.
Defined.

(** X2: whatever the network answers, every game the fetcher returns is an
    object whose time class is the string "bullet", and a call that returns
    a game has printed nothing; so every game the run aggregates is such an
    object. *)
Theorem X2_fetched_games_are_bullet_objects :
  (∀ net user year month g,
     g ∈ (fetch_bullet_games net user year month).1 →
     (∃ d, g = PDict d ∧ d !! "time_class" = Some (PStr "bullet"))
     ∧ (fetch_bullet_games net user year month).2 = [])
  ∧ (∀ net today g,
       g ∈ games_combined net today →
       ∃ d, g = PDict d ∧ d !! "time_class" = Some (PStr "bullet")).
Proof.
  assert (∀ net user year month g,
     g ∈ (fetch_bullet_games net user year month).1 →
     (∃ d, g = PDict d ∧ d !! "time_class" = Some (PStr "bullet"))
     ∧ (fetch_bullet_games net user year month).2 = []) as Hfetch.
  { intros net user year month g. unfold fetch_bullet_games.
    destruct (fetch_body net user year month) as [gs|e] eqn:E; simpl.
    - intros Hin. split; [|done].
      apply is_bullet_spec. by eapply fetch_body_elem.
    - intros Hin. by apply elem_of_nil in Hin. }
  split; [exact Hfetch|].
  intros net today g. unfold games_combined, fetch_last, fetch_this.
  intros [Hin|Hin]%elem_of_app; by destruct (Hfetch _ _ _ _ _ Hin).
Qed.

Lemma X2_fetched_games_are_bullet_objects_witness :
  ∃ d, won_game jan1 = PDict d ∧ d !! "time_class" = Some (PStr "bullet").
Proof.
  apply (proj2 X2_fetched_games_are_bullet_objects january_only (2024, 1, 15)).
  vm_compute. constructor.
Defined.

(** X3: a JSON object without a "games" entry gives the empty list and no
    diagnostic, like a month without games; an object whose "games" entry
    is null gives the empty list with the diagnostic of a [TypeError]. *)
Theorem X3_missing_games_is_silent_null_is_logged
    (net : network) (user : string) (year month : Z) (res : response)
    (d : gmap string pyval) :
  net (games_url user year month) headers = Ok res →
  ¬ (400 <= status_code res < 600) →
  json_body res = Ok (PDict d) →
  (d !! "games" = None → fetch_bullet_games net user year month = ([], []))
  ∧ (d !! "games" = Some PNone →
     fetch_bullet_games net user year month
     = ([], [failed_to_load year month
               (Exn TypeError "'NoneType' object is not iterable")])).
Proof.
  intros Hnet Hst Hbody.
  unfold fetch_bullet_games, fetch_body. rewrite Hnet. simpl.
  rewrite (raise_for_status_ok res Hst). simpl. rewrite Hbody. simpl.
  split; intros ->; reflexivity.
Qed.

Lemma X3_missing_games_is_silent_null_is_logged_witness :
  fetch_bullet_games (λ u _, Ok (Response 200 "OK" u (Ok (PDict ∅)))) "cand5d" 2024 2
  = ([], [])
  ∧ fetch_bullet_games
      (λ u _, Ok (Response 200 "OK" u (Ok (PDict {["games" := PNone]})))) "cand5d" 2024 2
    = ([], ["Failed to load 2024-02: 'NoneType' object is not iterable"]).
Proof.
  split.
  - apply (proj1 (X3_missing_games_is_silent_null_is_logged
             (λ u _, Ok (Response 200 "OK" u (Ok (PDict ∅)))) "cand5d" 2024 2
             (Response 200 "OK" (games_url "cand5d" 2024 2) (Ok (PDict ∅))) ∅
             eq_refl ltac:(simpl; lia) eq_refl)).
    reflexivity.
  - apply (proj2 (X3_missing_games_is_silent_null_is_logged
             (λ u _, Ok (Response 200 "OK" u (Ok (PDict {["games" := PNone]}))))
             "cand5d" 2024 2
             (Response 200 "OK" (games_url "cand5d" 2024 2)
                (Ok (PDict {["games" := PNone]})))
             {["games" := PNone]}
             eq_refl ltac:(simpl; lia) eq_refl)).
    reflexivity.
Defined.

(** ** The aggregation as a function of the multiset of games *)

Lemma count_app (p : pyval → bool) (a b : list pyval) :
  count p (a ++ b) = count p a + count p b.
Proof. induction a as [|g a IH]; simpl; [done|]. rewrite IH. lia. Qed.

Lemma count_perm (p : pyval → bool) (gs gs' : list pyval) :
  gs ≡ₚ gs' → count p gs = count p gs'.
Proof. induction 1; simpl; lia. Qed.

Lemma count_elem (p : pyval → bool) (gs : list pyval) (g : pyval) :
  g ∈ gs → p g = true → 1 <= count p gs.
Proof.
  intros Hin Hp. induction gs as [|a gs IH]; [by apply elem_of_nil in Hin|].
  simpl. pose proof (count_nonneg p gs).
  apply elem_of_cons in Hin as [<-|Hin].
  - rewrite Hp. lia.
  - specialize (IH Hin). destruct (p a); lia.
Qed.

Lemma count_le_length (p : pyval → bool) (gs : list pyval) :
  count p gs <= Z.of_nat (length gs).
Proof. induction gs as [|g gs IH]; simpl; [done|]. destruct (p g); lia. Qed.

Lemma count_won_zero (d : pydate) (gs : list pyval) :
  count (played_on d) gs = 0 → count (won_on d) gs = 0.
Proof.
  induction gs as [|g gs IH]; simpl; [done|].
  pose proof (count_nonneg (played_on d) gs).
  destruct (played_on d g) eqn:E; [lia|].
  assert (won_on d g = false) as ->; [|intros; apply IH; lia].
  unfold won_on, played_on in *.
  destruct (game_fields g) as [[d' r]|e]; [|done]. by rewrite E.
Qed.

Lemma daily_of_perm (gs gs' : list pyval) :
  gs ≡ₚ gs' → daily_of gs = daily_of gs'.
Proof.
  intros Hperm. apply map_eq. intros d. rewrite !daily_of_lookup.
  by rewrite (count_perm (played_on d) gs gs' Hperm),
             (count_perm (won_on d) gs gs' Hperm).
Qed.

(** X4: the result of the aggregator does not depend on the order of the
    games: two lists that are permutations of each other give the same
    frame and the same output. *)
Theorem X4_aggregation_ignores_the_order (gs gs' : list pyval) :
  gs ≡ₚ gs' → extract_daily_stats gs = extract_daily_stats gs'.
Proof.
  intros Hperm. unfold extract_daily_stats.
  by rewrite (daily_of_perm gs gs' Hperm).
Qed.

Lemma X4_aggregation_ignores_the_order_witness :
  extract_daily_stats [won_game jan1; PNone; lost_game (jan1 + day)]
  = extract_daily_stats [lost_game (jan1 + day); won_game jan1; PNone].
Proof.
  apply X4_aggregation_ignores_the_order. symmetry.
  apply (Permutation_cons_append [won_game jan1; PNone] (lost_game (jan1 + day))).
Defined.

(** X5: aggregating two lists one after the other adds the counts day by
    day: the dictionary of the concatenation has, for a date present on
    both sides, the sums of the games and of the wins, and for a date
    present on one side that side's entry. *)
Theorem X5_aggregation_of_a_concatenation (a b : list pyval) :
  daily_of (a ++ b)
  = union_with (λ s1 s2, Some (add_stats s1 s2)) (daily_of a) (daily_of b).
Proof.
  apply map_eq. intros d.
  rewrite lookup_union_with, !daily_of_lookup, !count_app.
  pose proof (count_nonneg (played_on d) a).
  pose proof (count_nonneg (played_on d) b).
  repeat case_bool_decide; simpl; try lia; try done.
  - rewrite (count_won_zero d a) by done. do 2 f_equal; lia.
  - rewrite (count_won_zero d b) by done. do 2 f_equal; lia.
Qed.

(** ** The dates and the totals of the frame *)

Lemma row_date_iff (gs : list pyval) (d : pydate) :
  d ∈ Date <$> (extract_daily_stats gs).1 ↔ 1 <= count (played_on d) gs.
Proof.
  rewrite extract_dates, list_elem_of_fmap. split.
  - intros ([d' s] & -> & Hin). apply elem_of_sorted_items in Hin.
    rewrite daily_of_lookup in Hin. simpl.
    pose proof (count_nonneg (played_on d') gs).
    case_bool_decide; [done|lia].
  - intros Hc.
    exists (d, Stats (count (played_on d) gs) (count (won_on d) gs)).
    split; [done|]. apply elem_of_sorted_items.
    rewrite daily_of_lookup. by rewrite bool_decide_eq_false_2 by lia.
Qed.

(** X6: the dates of the frame are exactly the dates of the games that are
    read without an exception: a date has a row if and only if some game of
    the list is read with that date. *)
Theorem X6_rows_are_the_dates_of_the_games (gs : list pyval) (d : pydate) :
  d ∈ Date <$> (extract_daily_stats gs).1
  ↔ ∃ g result, g ∈ gs ∧ game_fields g = Ok (d, result).
Proof.
  rewrite row_date_iff. split.
  - intros Hc. destruct (count_pos_exists _ _ Hc) as (g & Hin & Hp).
    apply played_on_spec in Hp as [result Hp]. eauto.
  - intros (g & result & Hin & Hg).
    apply (count_elem _ _ g Hin). apply played_on_spec. eauto.
Qed.

Lemma sum_Z_perm (l l' : list Z) : l ≡ₚ l' → sum_Z l = sum_Z l'.
Proof. unfold sum_Z. induction 1; simpl; lia. Qed.

Lemma total_empty (f : stats → Z) : total f ∅ = 0.
Proof. unfold total. by rewrite map_to_list_empty. Qed.

Lemma total_insert_fresh (f : stats → Z) (m : gmap pydate stats) (d : pydate) (s : stats) :
  m !! d = None → total f (<[d:=s]> m) = f s + total f m.
Proof.
  intros H. unfold total.
  rewrite (sum_Z_perm _ ((λ it, f it.2) <$> ((d, s) :: map_to_list m))); [done|].
  apply fmap_Permutation, map_to_list_insert, H.
Qed.

Lemma total_insert (f : stats → Z) (m : gmap pydate stats) (d : pydate) (s s0 : stats) :
  m !! d = Some s0 → total f (<[d:=s]> m) = f s + total f m - f s0.
Proof.
  intros H.
  rewrite <- (insert_delete_eq m d s).
  rewrite <- (insert_delete_id m d s0 H) at 2.
  rewrite !total_insert_fresh by apply lookup_delete_eq. lia.
Qed.

Lemma record_game_insert (daily : gmap pydate stats) (d : pydate) (win : Z) :
  record_game daily d win
  = <[d := Stats (games (default (Stats 0 0) (daily !! d)) + 1)
                 (wins (default (Stats 0 0) (daily !! d)) + win)]> daily.
Proof.
  apply map_eq. intros d'. rewrite record_game_lookup, lookup_insert.
  by destruct (decide (d = d')).
Qed.

Lemma total_loop_body (daily : gmap pydate stats) (g : pyval) :
  total games (loop_body daily g) = total games daily + (if aggregated g then 1 else 0)
  ∧ total wins (loop_body daily g)
    = total wins daily + (if aggregated_win g then 1 else 0).
Proof.
  unfold loop_body, game_entry, aggregated, aggregated_win.
  destruct (game_fields g) as [[d r]|e]; simpl; [|lia].
  rewrite record_game_insert.
  destruct (daily !! d) as [s0|] eqn:E; simpl.
  - rewrite !(total_insert _ _ _ _ s0 E). simpl.
    destruct (eq_str r "win"); lia.
  - rewrite !total_insert_fresh by done. simpl.
    destruct (eq_str r "win"); lia.
Qed.

Lemma total_foldl (gs : list pyval) (daily : gmap pydate stats) :
  total games (foldl loop_body daily gs) = total games daily + count aggregated gs
  ∧ total wins (foldl loop_body daily gs) = total wins daily + count aggregated_win gs.
Proof.
  revert daily. induction gs as [|g gs IH]; intros daily; simpl; [lia|].
  destruct (IH (loop_body daily g)) as [-> ->].
  destruct (total_loop_body daily g) as [-> ->]. lia.
Qed.

Lemma column_sums (gs : list pyval) :
  sum_Z (Games <$> (extract_daily_stats gs).1) = count aggregated gs
  ∧ sum_Z (Wins <$> (extract_daily_stats gs).1) = count aggregated_win gs.
Proof.
  destruct (total_foldl gs ∅) as [Hg Hw].
  rewrite total_empty, Z.add_0_l in Hg. rewrite total_empty, Z.add_0_l in Hw.
  fold (daily_of gs) in Hg, Hw. unfold total in Hg, Hw.
  rewrite extract_rows, <- !list_fmap_compose.
  split.
  - rewrite <- Hg. apply sum_Z_perm, fmap_Permutation, sorted_items_perm.
  - rewrite <- Hw. apply sum_Z_perm, fmap_Permutation, sorted_items_perm.
Qed.

(** X7: no game is counted twice and none is lost: the games column sums
    to the number of games read without an exception, the wins column to
    the number of those whose result is the string "win"; in a run the
    games column sums to at most the number printed in the line
    "Fetched N games". *)
Theorem X7_columns_sum_to_the_games_read :
  (∀ gs,
     sum_Z (Games <$> (extract_daily_stats gs).1) = count aggregated gs
     ∧ sum_Z (Wins <$> (extract_daily_stats gs).1) = count aggregated_win gs
     ∧ count aggregated_win gs <= count aggregated gs <= Z.of_nat (length gs))
  ∧ (∀ g, aggregated g = true ↔ ∃ d result, game_fields g = Ok (d, result))
  ∧ (∀ g, aggregated_win g = true ↔ ∃ d, game_fields g = Ok (d, PStr "win"))
  ∧ (∀ net today,
       sum_Z (Games <$> df net today) <= Z.of_nat (length (games_combined net today))).
Proof.
  split; [|split; [|split]].
  - intros gs. destruct (column_sums gs) as [Hg Hw].
    split; [done|]. split; [done|]. split; [|apply count_le_length].
    clear. induction gs as [|g gs IH]; simpl; [done|].
    unfold aggregated_win at 1, aggregated at 1.
    destruct (game_fields g) as [[d r]|e]; [destruct (eq_str r "win")|]; lia.
  - intros g. unfold aggregated.
    destruct (game_fields g) as [[d r]|e]; split; try done; eauto.
    intros (d & r & [=]).
  - intros g. unfold aggregated_win.
    destruct (game_fields g) as [[d r]|e].
    + rewrite eq_str_spec. split; [intros ->; eauto|intros (d' & [= _ ->]); done].
    + split; [done|]. intros (d & [=]).
  - intros net today. unfold df.
    destruct (column_sums (games_combined net today)) as [-> _].
    apply count_le_length.
Qed.

(** X8: the frame is empty exactly when every game of the list raises, in
    particular for a list of malformed games as for the empty list; then
    and only then the aggregator prints "No bullet games found.". *)
Theorem X8_empty_frame_iff_every_game_raises (gs : list pyval) :
  ((extract_daily_stats gs).1 = [] ↔ ∀ g, g ∈ gs → ∃ e, game_fields g = Raise e)
  ∧ ((extract_daily_stats gs).2 = ["No bullet games found."]
     ↔ (extract_daily_stats gs).1 = [])
  ∧ ((extract_daily_stats gs).2 = [] ↔ (extract_daily_stats gs).1 ≠ []).
Proof.
  split; [|split].
  - split.
    + intros Hnil g Hin.
      destruct (game_fields g) as [[d r]|e] eqn:E; [|eauto].
      assert (d ∈ Date <$> (extract_daily_stats gs).1) as Hd.
      { apply row_date_iff, (count_elem _ _ g Hin), played_on_spec. eauto. }
      rewrite Hnil in Hd. by apply elem_of_nil in Hd.
    + intros Hall. destruct ((extract_daily_stats gs).1) as [|r rows] eqn:E; [done|].
      assert (Date r ∈ Date <$> (extract_daily_stats gs).1) as Hd.
      { rewrite E. csimpl. left. }
      apply row_date_iff, count_pos_exists in Hd as (g & Hin & Hp).
      apply played_on_spec in Hp as [result Hp].
      destruct (Hall g Hin) as [e He]. congruence.
  - unfold extract_daily_stats. case_bool_decide as Hnil; simpl; [done|].
    split; [done|]. intros H%fmap_nil_inv. done.
  - unfold extract_daily_stats. case_bool_decide as Hnil; simpl; [done|].
    split; [|done]. intros _ H%fmap_nil_inv. done.
Qed.

(** ** The chart and the flags *)

Lemma flag_overuse (x : Z) : flag x = "⚠️ Overuse" ↔ 6 < x.
Proof. unfold flag. case_bool_decide; split; try done; lia. Qed.

(** X9: the chart is drawn from the frame row by row: the bars carry the
    games of the rows, the line their win rates, both over the dates of the
    rows, and a bar is red exactly when the row is flagged as overuse in
    the table (green otherwise). *)
Theorem X9_chart_follows_the_frame (gs : list pyval) :
  (extract_daily_stats gs).1 ≠ [] →
  data (plot (extract_daily_stats gs).1)
  = [ Bar (Date <$> (extract_daily_stats gs).1) (Games <$> (extract_daily_stats gs).1)
          "Games per Day" (colour_of_flag <$> (extract_daily_stats gs).1)
          (Games <$> (extract_daily_stats gs).1) "auto" "y1";
      Scatter (Date <$> (extract_daily_stats gs).1)
              (WinRate <$> (extract_daily_stats gs).1) "Win Rate (%)"
              "lines+markers" [("color", AStr "blue")] [("size", AInt 10)] "y2" ].
Proof.
  intros Hne. unfold plot. rewrite bool_decide_eq_true_2 by done. simpl.
  do 2 f_equal. rewrite <- list_fmap_compose.
  apply list_fmap_ext. intros i r Hr. simpl.
  apply list_elem_of_lookup_2, elem_of_extract in Hr as (d & s & _ & ->).
  unfold colour_of_flag. simpl.
  repeat case_bool_decide; try done.
  - exfalso. rewrite flag_overuse in *. lia.
  - exfalso. rewrite flag_overuse in *. lia.
Qed.

Lemma X9_chart_follows_the_frame_witness :
  data (plot (extract_daily_stats (day_games jan1 7 3)).1)
  = [ Bar (Date <$> (extract_daily_stats (day_games jan1 7 3)).1)
          (Games <$> (extract_daily_stats (day_games jan1 7 3)).1)
          "Games per Day" (colour_of_flag <$> (extract_daily_stats (day_games jan1 7 3)).1)
          (Games <$> (extract_daily_stats (day_games jan1 7 3)).1) "auto" "y1";
      Scatter (Date <$> (extract_daily_stats (day_games jan1 7 3)).1)
              (WinRate <$> (extract_daily_stats (day_games jan1 7 3)).1) "Win Rate (%)"
              "lines+markers" [("color", AStr "blue")] [("size", AInt 10)] "y2" ].
Proof.
  apply X9_chart_follows_the_frame. vm_compute. discriminate.
Defined.

(** ** The months and the URLs *)

Lemma string_append_cons (c : ascii) (s1 s2 : string) :
  String c s1 +:+ s2 = String c (s1 +:+ s2).
Proof. reflexivity. Qed.

Lemma string_length_append (s1 s2 : string) :
  String.length (s1 +:+ s2) = (String.length s1 + String.length s2)%nat.
Proof.
  induction s1 as [|c s1 IH]; [done|].
  rewrite string_append_cons. simpl. by rewrite IH.
Qed.

Lemma string_append_assoc (s1 s2 s3 : string) :
  (s1 +:+ s2) +:+ s3 = s1 +:+ (s2 +:+ s3).
Proof.
  induction s1 as [|c s1 IH]; [done|].
  rewrite !string_append_cons. by rewrite IH.
Qed.

Lemma string_append_inj_suffix (s1 s2 a b : string) :
  String.length a = String.length b → s1 +:+ a = s2 +:+ b → a = b.
Proof.
  intros Hlen. revert s2. induction s1 as [|c s1 IH]; intros [|c2 s2] H.
  - done.
  - exfalso. apply (f_equal String.length) in H.
    rewrite !string_length_append in H. simpl in H. lia.
  - exfalso. apply (f_equal String.length) in H.
    rewrite !string_length_append in H. simpl in H. lia.
  - rewrite !string_append_cons in H. injection H as _ H. by apply (IH s2).
Qed.

Lemma fmt_02d_month (m : Z) :
  1 <= m <= 12 →
  fmt_02d m ∈ ["01"; "02"; "03"; "04"; "05"; "06"; "07"; "08"; "09"; "10"; "11"; "12"]
  ∧ String.length (fmt_02d m) = 2%nat.
Proof.
  intros H.
  assert (m = 1 ∨ m = 2 ∨ m = 3 ∨ m = 4 ∨ m = 5 ∨ m = 6 ∨ m = 7 ∨ m = 8
          ∨ m = 9 ∨ m = 10 ∨ m = 11 ∨ m = 12) as Hm by lia.
  repeat (destruct Hm as [->|Hm]); try subst m;
    (split; [vm_compute; repeat constructor|reflexivity]).
Qed.

Lemma fmt_02d_month_inj (m1 m2 : Z) :
  1 <= m1 <= 12 → 1 <= m2 <= 12 → fmt_02d m1 = fmt_02d m2 → m1 = m2.
Proof.
  intros H1 H2.
  assert (m1 = 1 ∨ m1 = 2 ∨ m1 = 3 ∨ m1 = 4 ∨ m1 = 5 ∨ m1 = 6 ∨ m1 = 7 ∨ m1 = 8
          ∨ m1 = 9 ∨ m1 = 10 ∨ m1 = 11 ∨ m1 = 12) as Hm1 by lia.
  assert (m2 = 1 ∨ m2 = 2 ∨ m2 = 3 ∨ m2 = 4 ∨ m2 = 5 ∨ m2 = 6 ∨ m2 = 7 ∨ m2 = 8
          ∨ m2 = 9 ∨ m2 = 10 ∨ m2 = 11 ∨ m2 = 12) as Hm2 by lia.
  repeat (destruct Hm1 as [->|Hm1]); try subst m1;
    repeat (destruct Hm2 as [->|Hm2]); try subst m2;
    (reflexivity || (vm_compute; discriminate)).
Qed.

Lemma games_url_month_differs (user : string) (y1 m1 y2 m2 : Z) :
  1 <= m1 <= 12 → 1 <= m2 <= 12 → m1 ≠ m2 →
  games_url user y1 m1 ≠ games_url user y2 m2.
Proof.
  intros H1 H2 Hne Heq. apply Hne, fmt_02d_month_inj; [done..|].
  unfold games_url in Heq.
  rewrite <- !string_append_assoc in Heq.
  apply string_append_inj_suffix in Heq; [done|].
  destruct (fmt_02d_month m1 H1) as [_ ->].
  by destruct (fmt_02d_month m2 H2) as [_ ->].
Qed.

(** X10: for a calendar month (1 to 12) the month before is again a
    calendar month, it is the month that immediately precedes the current
    one, and the two URLs the run requests differ, each ending in a month of
    two digits. *)
Theorem X10_the_two_months_are_consecutive (y m d : Z) :
  1 <= m <= 12 →
  1 <= (last_month (y, m, d)).2 <= 12
  ∧ month_index (last_month (y, m, d)) = month_index (this_month (y, m, d)) - 1
  ∧ games_url username (last_month (y, m, d)).1 (last_month (y, m, d)).2
    ≠ games_url username (this_month (y, m, d)).1 (this_month (y, m, d)).2
  ∧ String.length (fmt_02d (last_month (y, m, d)).2) = 2%nat
  ∧ String.length (fmt_02d (this_month (y, m, d)).2) = 2%nat.
Proof.
  intros Hm. unfold last_month, this_month, month_index.
  case_bool_decide as H1; simpl.
  - subst m. split; [lia|]. split; [lia|]. split; [|by split].
    apply games_url_month_differs; lia.
  - split; [lia|]. split; [lia|]. split; [|split].
    + apply games_url_month_differs; lia.
    + apply fmt_02d_month. lia.
    + by apply fmt_02d_month.
Qed.

Lemma X10_the_two_months_are_consecutive_witness :
  1 <= (last_month (2025, 1, 3)).2 <= 12
  ∧ month_index (last_month (2025, 1, 3)) = month_index (this_month (2025, 1, 3)) - 1
  ∧ games_url username (last_month (2025, 1, 3)).1 (last_month (2025, 1, 3)).2
    ≠ games_url username (this_month (2025, 1, 3)).1 (this_month (2025, 1, 3)).2
  ∧ String.length (fmt_02d (last_month (2025, 1, 3)).2) = 2%nat
  ∧ String.length (fmt_02d (this_month (2025, 1, 3)).2) = 2%nat.
Proof.
  apply (X10_the_two_months_are_consecutive 2025 1 3). lia.
Defined.

(** ** The range of the timestamps *)

Lemma utc_date_of_int_ok (t : Z) :
  (∃ d, utc_date_of_int t = Ok d) ↔ min_timestamp <= t <= max_timestamp.
Proof.
  unfold utc_date_of_int, min_timestamp, max_timestamp,
    min_ordinal, max_ordinal, epoch_ordinal.
  change (2 ^ 63) with 9223372036854775808.
  pose proof (Z.div_mod t 86400 ltac:(lia)) as Hdm.
  pose proof (Z.mod_pos_bound t 86400 ltac:(lia)) as Hmod.
  split.
  - intros [d H]. repeat case_bool_decide; try discriminate. lia.
  - intros H. rewrite !bool_decide_eq_true_2 by lia. eauto.
Qed.

(** X11: an integer timestamp is given a date exactly when it lies in
    the years 1 to 9999, from -62135596800 to 253402300799 seconds; a game
    whose integer end time lies outside is skipped like a malformed one. *)
Theorem X11_timestamps_of_the_years_1_to_9999 :
  (∀ t, (∃ d, utcfromtimestamp_date (PInt t) = Ok d)
        ↔ -62135596800 <= t <= 253402300799)
  ∧ (∀ d t pre post,
       d !! "end_time" = Some (PInt t) →
       ¬ (-62135596800 <= t <= 253402300799) →
       extract_daily_stats (pre ++ PDict d :: post) = extract_daily_stats (pre ++ post)).
Proof.
  split.
  - intros t. apply utc_date_of_int_ok.
  - intros d t pre post Ht Hout.
    assert (∃ e, game_fields (PDict d) = Raise e) as [e He].
    { unfold game_fields. simpl. rewrite Ht. simpl.
      destruct (utc_date_of_int t) as [dt|e] eqn:E; simpl; [|eauto].
      exfalso. apply Hout. apply utc_date_of_int_ok. eauto. }
    by apply (extract_skips pre post (PDict d) e).
Qed.

Lemma X11_timestamps_of_the_years_1_to_9999_witness :
  extract_daily_stats ([won_game jan1] ++ PDict {["end_time" := PInt 253402300800]} :: [])
  = extract_daily_stats ([won_game jan1] ++ []).
Proof.
  apply (proj2 X11_timestamps_of_the_years_1_to_9999 _ 253402300800).
  - reflexivity.
  - lia.
Defined.

(** ** The calendar *)

Lemma date_ltb_spec (a b : pydate) : date_ltb a b = true ↔ date_lt a b.
Proof.
  destruct a as [[y1 m1] d1], b as [[y2 m2] d2]. unfold date_ltb, date_lt, date_le.
  rewrite !orb_true_iff, !andb_true_iff, !orb_true_iff, !andb_true_iff.
  rewrite !Z.ltb_lt, !Z.eqb_eq. split.
  - intros H. split; [lia|]. intros [= -> -> ->]. lia.
  - intros [H Hne].
    destruct (decide (y1 = y2)) as [->|]; [|lia].
    destruct (decide (m1 = m2)) as [->|]; [|lia].
    destruct (decide (d1 = d2)) as [->|]; [done|lia].
Qed.

Lemma date_lt_trans (a b c : pydate) : date_lt a b → date_lt b c → date_lt a c.
Proof.
  rewrite <- !date_ltb_spec.
  destruct a as [[y1 m1] d1], b as [[y2 m2] d2], c as [[y3 m3] d3]. unfold date_ltb.
  rewrite !orb_true_iff, !andb_true_iff, !orb_true_iff, !andb_true_iff.
  rewrite !Z.ltb_lt, !Z.eqb_eq. lia.
Qed.

Lemma date_lt_irrefl (a : pydate) : ¬ date_lt a a.
Proof. by intros [_ H]. Qed.

(** The date of an ordinal is the date of its place in the cycle of 400
    years, moved by the years of the cycles before. *)
Lemma ord2ymd_cycle (o : Z) :
  ord2ymd o
  = shift_years (400 * ((o - 1) / cycle_days)) (ord2ymd ((o - 1) mod cycle_days + 1)).
Proof.
  unfold ord2ymd, cycle_days.
  replace ((o - 1) mod 146097 + 1 - 1) with ((o - 1) mod 146097) by lia.
  rewrite Z.mod_mod by lia.
  rewrite (Z.div_small ((o - 1) mod 146097) 146097)
    by (apply Z.mod_pos_bound; lia).
  set (n := (o - 1) mod 146097).
  set (c := (o - 1) / 146097).
  cbv zeta.
  repeat case_bool_decide; unfold shift_years; simpl;
    try (do 2 f_equal; lia); try lia.
Qed.

Lemma days_checked_spec (fuel : nat) (r0 r : Z) (prev : pydate) :
  days_checked fuel r0 prev = true → prev = ord2ymd (r0 - 1) →
  r0 <= r < r0 + Z.of_nat fuel →
  day_checked (ord2ymd (r - 1)) (ord2ymd r) = true.
Proof.
  revert r0 prev. induction fuel as [|fuel IH]; intros r0 prev; simpl; [lia|].
  destruct (day_checked prev (ord2ymd r0)) eqn:E; [|discriminate].
  intros H -> Hr. destruct (decide (r = r0)) as [->|Hne]; [done|].
  apply (IH (r0 + 1) (ord2ymd r0)); [done| |lia].
  f_equal. lia.
Qed.

Lemma cycle_checked : days_checked (Z.to_nat cycle_days) 1 (ord2ymd 0) = true.
Proof. vm_cast_no_check (eq_refl true). Qed.

Lemma day_checked_in_cycle (r : Z) :
  1 <= r <= cycle_days →
  date_lt (ord2ymd (r - 1)) (ord2ymd r) ∧ 1 <= (ord2ymd r).1.1 <= 400.
Proof.
  intros Hr.
  pose proof (days_checked_spec _ 1 r _ cycle_checked eq_refl) as H.
  unfold day_checked, in_first_cycle in H.
  rewrite !andb_true_iff, date_ltb_spec, !Z.leb_le in H.
  unfold cycle_days in *. destruct H as [H1 H2]; [lia|]. split; [done|lia].
Qed.

Lemma month_day_in_cycle (r : Z) :
  1 <= r <= cycle_days →
  1 <= (ord2ymd r).1.2 <= 12 ∧ 1 <= (ord2ymd r).2 <= 31.
Proof.
  intros Hr.
  pose proof (days_checked_spec _ 1 r _ cycle_checked eq_refl) as H.
  unfold day_checked, in_first_cycle in H.
  rewrite !andb_true_iff, !Z.leb_le in H.
  unfold cycle_days in *. destruct H as [H1 H2]; [lia|]. lia.
Qed.

Lemma ord2ymd_mono_in_cycle (r1 r2 : Z) :
  1 <= r1 → r1 < r2 → r2 <= cycle_days → date_lt (ord2ymd r1) (ord2ymd r2).
Proof.
  intros H1 Hlt.
  assert (r1 + 1 <= r2) as Hle by lia. clear Hlt. revert r2 Hle.
  apply (Zlt_lower_bound_ind
           (λ r2, r2 <= cycle_days → date_lt (ord2ymd r1) (ord2ymd r2)) (r1 + 1)).
  intros r2 IH Hr2 Hle.
  destruct (day_checked_in_cycle r2 ltac:(lia)) as [Hstep _].
  destruct (decide (r2 = r1 + 1)) as [->|Hne].
  - by replace (r1 + 1 - 1) with r1 in Hstep by lia.
  - apply (date_lt_trans _ (ord2ymd (r2 - 1))); [|done].
    apply IH; lia.
Qed.

(** A later ordinal has a later date. *)
Lemma ord2ymd_mono (o1 o2 : Z) : o1 < o2 → date_lt (ord2ymd o1) (ord2ymd o2).
Proof.
  intros Hlt. rewrite (ord2ymd_cycle o1), (ord2ymd_cycle o2).
  pose proof (Z.div_mod (o1 - 1) cycle_days ltac:(done)) as E1.
  pose proof (Z.div_mod (o2 - 1) cycle_days ltac:(done)) as E2.
  pose proof (Z.mod_pos_bound (o1 - 1) cycle_days ltac:(done)) as B1.
  pose proof (Z.mod_pos_bound (o2 - 1) cycle_days ltac:(done)) as B2.
  set (c1 := (o1 - 1) / cycle_days) in *. set (c2 := (o2 - 1) / cycle_days) in *.
  set (r1 := (o1 - 1) mod cycle_days + 1) in *.
  set (r2 := (o2 - 1) mod cycle_days + 1) in *.
  assert (1 <= r1 <= cycle_days) as Hr1 by (unfold r1; lia).
  assert (1 <= r2 <= cycle_days) as Hr2 by (unfold r2; lia).
  destruct (day_checked_in_cycle r1 Hr1) as [_ Hy1].
  destruct (day_checked_in_cycle r2 Hr2) as [_ Hy2].
  unfold cycle_days in *.
  destruct (decide (c1 = c2)) as [Hc|Hc].
  - assert (r1 < r2) as Hr by (unfold r1, r2; lia).
    pose proof (ord2ymd_mono_in_cycle r1 r2 ltac:(lia) Hr ltac:(unfold cycle_days; lia)) as H.
    rewrite Hc. apply date_ltb_spec in H. apply date_ltb_spec.
    destruct (ord2ymd r1) as [[y1 m1] d1], (ord2ymd r2) as [[y2 m2] d2].
    unfold shift_years, date_ltb in *. simpl in *.
    rewrite !orb_true_iff, !andb_true_iff, !orb_true_iff, !andb_true_iff in *.
    rewrite !Z.ltb_lt, !Z.eqb_eq in *. lia.
  - assert (c1 < c2) as Hlt' by (unfold r1, r2 in *; nia).
    apply date_ltb_spec.
    destruct (ord2ymd r1) as [[y1 m1] d1], (ord2ymd r2) as [[y2 m2] d2].
    unfold shift_years, date_ltb. simpl in *.
    rewrite !orb_true_iff, !andb_true_iff, !orb_true_iff, !andb_true_iff.
    rewrite !Z.ltb_lt, !Z.eqb_eq. lia.
Qed.

Lemma utc_date_of_int_ordinal (t : Z) (d : pydate) :
  utc_date_of_int t = Ok d → d = ord2ymd (t / 86400 + epoch_ordinal).
Proof.
  unfold utc_date_of_int. repeat case_bool_decide; try discriminate.
  by intros [= <-].
Qed.

Lemma exc_bind_ok {A B} (m : exc A) (f : A → exc B) (y : B) :
  m ≫= f = Ok y → ∃ x, m = Ok x ∧ f x = Ok y.
Proof. destruct m as [x|e]; simpl; [eauto|discriminate]. Qed.

Lemma game_fields_date (g end_time : pyval) (d : pydate) (result : pyval) :
  getitem g "end_time" = Ok end_time →
  game_fields g = Ok (d, result) →
  utcfromtimestamp_date end_time = Ok d.
Proof.
  intros Ht. unfold game_fields. rewrite Ht.
  intros (t & [= <-] & H)%exc_bind_ok.
  apply exc_bind_ok in H as (d' & Hd & H). rewrite Hd. f_equal.
  apply exc_bind_ok in H as (white & _ & H).
  apply exc_bind_ok in H as (name & _ & H).
  apply exc_bind_ok in H as (lname & _ & H).
  apply exc_bind_ok in H as (side & _ & H).
  apply exc_bind_ok in H as (r & _ & H).
  by injection H.
Qed.

(** X12: the date of a game is its UTC day: two games with integer end
    times that are both read get the same date, and so are counted in the
    same row, exactly when the end times fall on the same day of 86400
    seconds counted from the epoch, and the game of the earlier day gets the
    earlier date. *)
Theorem X12_games_are_grouped_by_utc_day
    (g1 g2 : pyval) (t1 t2 : Z) (d1 d2 : pydate) (r1 r2 : pyval) :
  getitem g1 "end_time" = Ok (PInt t1) →
  getitem g2 "end_time" = Ok (PInt t2) →
  game_fields g1 = Ok (d1, r1) →
  game_fields g2 = Ok (d2, r2) →
  (d1 = d2 ↔ t1 / 86400 = t2 / 86400)
  ∧ (date_lt d1 d2 ↔ t1 / 86400 < t2 / 86400).
Proof.
  intros Ht1 Ht2 Hg1 Hg2.
  apply (game_fields_date g1 (PInt t1)), utc_date_of_int_ordinal in Hg1; [|done].
  apply (game_fields_date g2 (PInt t2)), utc_date_of_int_ordinal in Hg2; [|done].
  subst d1 d2.
  set (o1 := t1 / 86400). set (o2 := t2 / 86400).
  assert (∀ a b, a < b →
            date_lt (ord2ymd (a + epoch_ordinal)) (ord2ymd (b + epoch_ordinal))) as Hmono.
  { intros a b Hab. apply ord2ymd_mono. lia. }
  split; split.
  - intros Heq. destruct (Z.lt_trichotomy o1 o2) as [H|[H|H]]; [|done|].
    + apply Hmono in H. rewrite Heq in H. by destruct (date_lt_irrefl _ H).
    + apply Hmono in H. rewrite Heq in H. by destruct (date_lt_irrefl _ H).
  - by intros ->.
  - intros Hlt. destruct (Z.lt_trichotomy o1 o2) as [H|[H|H]]; [done| |].
    + rewrite H in Hlt. by destruct (date_lt_irrefl _ Hlt).
    + apply Hmono in H. by destruct (date_lt_irrefl _ (date_lt_trans _ _ _ Hlt H)).
  - apply Hmono.
Qed.

Lemma X12_games_are_grouped_by_utc_day_witness :
  ((2024, 1, 1) = (2024, 1, 2) ↔ jan1 / 86400 = (jan1 + day) / 86400)
  ∧ (date_lt (2024, 1, 1) (2024, 1, 2) ↔ jan1 / 86400 < (jan1 + day) / 86400).
Proof.
  apply (X12_games_are_grouped_by_utc_day (won_game jan1) (lost_game (jan1 + day))
           jan1 (jan1 + day) (2024, 1, 1) (2024, 1, 2) (PStr "win") (PStr "checkmated"));
    reflexivity.
Defined.

Lemma utcfromtimestamp_date_int (v : pyval) (d : pydate) :
  utcfromtimestamp_date v = Ok d → ∃ t, utc_date_of_int t = Ok d.
Proof.
  destruct v; simpl; try discriminate; eauto.
  intros (t & _ & H)%exc_bind_ok. eauto.
Qed.

Lemma game_fields_timestamp (g : pyval) (d : pydate) (result : pyval) :
  game_fields g = Ok (d, result) → ∃ t, utc_date_of_int t = Ok d.
Proof.
  intros Hg. pose proof Hg as Hg'. unfold game_fields in Hg'.
  apply exc_bind_ok in Hg' as (v & Hv & _).
  apply (utcfromtimestamp_date_int v). by apply (game_fields_date g v d result).
Qed.

Lemma utc_date_of_int_calendar (t : Z) (d : pydate) :
  utc_date_of_int t = Ok d →
  1 <= d.1.1 <= 9999 ∧ 1 <= d.1.2 <= 12 ∧ 1 <= d.2 <= 31.
Proof.
  intros H. pose proof (utc_date_of_int_ordinal t d H) as ->.
  assert (min_ordinal <= t / 86400 + epoch_ordinal <= max_ordinal) as Ho.
  { unfold utc_date_of_int in H. repeat case_bool_decide; done. }
  set (o := t / 86400 + epoch_ordinal) in *. unfold min_ordinal, max_ordinal in Ho.
  split; [|].
  - assert (date_le (ord2ymd 1) (ord2ymd o)) as Hlo.
    { destruct (decide (o = 1)) as [->|]; [done|]. apply ord2ymd_mono. lia. }
    assert (date_le (ord2ymd o) (ord2ymd 3652059)) as Hhi.
    { destruct (decide (o = 3652059)) as [->|]; [done|]. apply ord2ymd_mono. lia. }
    change (ord2ymd 1) with (1, 1, 1) in Hlo.
    change (ord2ymd 3652059) with (9999, 12, 31) in Hhi.
    destruct (ord2ymd o) as [[y m] dd]. unfold date_le in *. simpl. lia.
  - rewrite (ord2ymd_cycle o). simpl.
    apply month_day_in_cycle.
    pose proof (Z.mod_pos_bound (o - 1) cycle_days ltac:(done)). lia.
Qed.

(** X13: every date of the frame is a calendar date: its year lies in 1
    to 9999, its month in 1 to 12 and its day in 1 to 31, whatever the end
    times of the games are. *)
Theorem X13_rows_carry_calendar_dates (gs : list pyval) (r : row) :
  r ∈ (extract_daily_stats gs).1 →
  1 <= (Date r).1.1 <= 9999 ∧ 1 <= (Date r).1.2 <= 12 ∧ 1 <= (Date r).2 <= 31.
Proof.
  intros Hr.
  assert (Date r ∈ Date <$> (extract_daily_stats gs).1) as Hd
    by (by apply list_elem_of_fmap_2).
  apply row_date_iff, count_pos_exists in Hd as (g & _ & Hp).
  apply played_on_spec in Hp as [result Hp].
  apply game_fields_timestamp in Hp as [t Ht].
  by apply (utc_date_of_int_calendar t).
Qed.

Lemma X13_rows_carry_calendar_dates_witness :
  let r := Row (2024, 1, 1) 1 1 (win_rate 1 1) (flag 1) in
  1 <= (Date r).1.1 <= 9999 ∧ 1 <= (Date r).1.2 <= 12 ∧ 1 <= (Date r).2 <= 31.
Proof.
  apply (X13_rows_carry_calendar_dates [won_game jan1]).
  vm_compute. constructor.
Defined.
